(** * platemate: the data model of [platemate/data.py]

    A shallow embedding of the classes [WellStatistic], [WellStatisticList],
    [Well], [Plate] and [Reference] and of the two table loaders
    [_plate_from_dataframe] and [_ref_from_dataframe], and of the console
    script of [platemate/cli.py], followed by the properties of the
    specification that concern them and by further properties of the code.

    Conventions of the embedding.
    - A Python [str] is a [string] (a sequence of 8-bit characters), which
      stands for itself when its characters are ASCII ([ascii_only]): the
      regular expression classes [\d] and [[0-9]] coincide there, while on
      other strings [\d] and [int] also read the decimal digits of other
      scripts.  The properties that depend on the digits of a string
      assume [ascii_only].
    - A pattern is the regular expression that [re] compiles it to, built
      from sets of characters, concatenation, alternation and repetition;
      a string that [re] refuses as a pattern has no counterpart.
    - A Python exception is a value of [exn]; a call that may raise returns
      a [result].  [try ... except] is a [match] on the raised exception.
    - A table cell is a [cell]: a string or a number.  Numbers are integers;
      the code never computes with a cell, it only stores and compares it.
    - A [dict] is a [gmap]; the order of its keys is not tracked.
    - A method that reads or writes [self.data] of a [Reference] takes the
      object and returns it next to its result. *)

From Stdlib Require Import ZArith String Ascii List Bool Lia.
From stdpp Require Import base option list gmap strings fin_maps.

Local Open Scope Z_scope.

(** ** Dynamic values and exceptions *)

Inductive cell : Type :=
| CStr (s : string)
| CNum (n : Z).

#[global] Instance cell_eq_dec : EqDecision cell.
Proof. solve_decision. Defined.

Definition cell_to_sum (c : cell) : string + Z :=
  match c with CStr s => inl s | CNum n => inr n end.

Definition cell_of_sum (x : string + Z) : cell :=
  match x with inl s => CStr s | inr n => CNum n end.

#[global] Instance cell_countable : Countable cell.
Proof.
  refine (inj_countable' cell_to_sum cell_of_sum _).
  intros []; reflexivity.
Defined.

(** The exceptions the module raises or lets through.  A [KeyError] carries
    its argument: the missing key when a [dict] raises it, a message when
    the module raises it. *)
Inductive exn : Type :=
| ValueError (msg : string)
| KeyError (arg : cell)
| AttributeError (msg : string)
| TypeError (msg : string)
| IndexError (msg : string)
| OSError (msg : string).

Inductive result (A : Type) : Type :=
| Ok (a : A)
| Raise (e : exn).
Arguments Ok {A} a.
Arguments Raise {A} e.

#[global] Instance result_ret : MRet result := λ A a, Ok a.

#[global] Instance result_bind : MBind result := λ A B k r,
  match r with
  | Ok a => k a
  | Raise e => Raise e
  end.

#[global] Instance result_fmap : FMap result := λ A B f r,
  match r with
  | Ok a => Ok (f a)
  | Raise e => Raise e
  end.

Definition is_Ok {A} (r : result A) : Prop := ∃ a, r = Ok a.

(** [for x in xs] with a body that may raise: the first exception ends the
    loop. *)
Fixpoint for_each {A B} (f : A → result B) (xs : list A) : result (list B) :=
  match xs with
  | [] => Ok []
  | x :: xs' => y ← f x; ys ← for_each f xs'; Ok (y :: ys)
  end.

(** ** Regular expressions

    The patterns of the module, as [re] compiles them.  [re.match] succeeds
    when some prefix of the subject belongs to the language of the pattern,
    which [has_prefix_match] decides by derivatives. *)

Inductive regex : Type :=
| RNone
| REmpty
| RSet (cs : list ascii)
| RCat (r1 r2 : regex)
| RAlt (r1 r2 : regex)
| RStar (r : regex).

Definition RPlus (r : regex) : regex := RCat r (RStar r).

Fixpoint RLit (w : list ascii) : regex :=
  match w with
  | [] => REmpty
  | c :: w' => RCat (RSet [c]) (RLit w')
  end.

Definition in_set (c : ascii) (cs : list ascii) : bool :=
  existsb (Ascii.eqb c) cs.

Fixpoint nullable (r : regex) : bool :=
  match r with
  | RNone => false
  | REmpty => true
  | RSet _ => false
  | RCat r1 r2 => nullable r1 && nullable r2
  | RAlt r1 r2 => nullable r1 || nullable r2
  | RStar _ => true
  end.

Fixpoint deriv (c : ascii) (r : regex) : regex :=
  match r with
  | RNone => RNone
  | REmpty => RNone
  | RSet cs => if in_set c cs then REmpty else RNone
  | RCat r1 r2 =>
      if nullable r1
      then RAlt (RCat (deriv c r1) r2) (deriv c r2)
      else RCat (deriv c r1) r2
  | RAlt r1 r2 => RAlt (deriv c r1) (deriv c r2)
  | RStar r1 => RCat (deriv c r1) (RStar r1)
  end.

Fixpoint has_prefix_match (r : regex) (s : list ascii) : bool :=
  nullable r ||
  match s with
  | [] => false
  | c :: s' => has_prefix_match (deriv c r) s'
  end.

(** The language of a pattern. *)
Inductive matches : regex → list ascii → Prop :=
| matches_empty : matches REmpty []
| matches_set c cs : in_set c cs = true → matches (RSet cs) [c]
| matches_cat r1 r2 u v :
    matches r1 u → matches r2 v → matches (RCat r1 r2) (u ++ v)
| matches_alt_l r1 r2 u : matches r1 u → matches (RAlt r1 r2) u
| matches_alt_r r1 r2 u : matches r2 u → matches (RAlt r1 r2) u
| matches_star_nil r : matches (RStar r) []
| matches_star_app r u v :
    matches r u → matches (RStar r) v → matches (RStar r) (u ++ v).

Definition chars (s : string) : list ascii := list_ascii_of_string s.

Definition digit_set : list ascii := chars "0123456789".

Definition is_digit (c : ascii) : bool := in_set c digit_set.

(** ["[Ss]tandard[0-9]+"] and ["[Bb]ackground[0-9]+"]. *)
Definition standard_pattern_default : regex :=
  RCat (RSet (chars "Ss")) (RCat (RLit (chars "tandard")) (RPlus (RSet digit_set))).

Definition background_pattern_default : regex :=
  RCat (RSet (chars "Bb")) (RCat (RLit (chars "ackground")) (RPlus (RSet digit_set))).

(** [r"(\d+).*"]: the dot is any character but the newline. *)
Definition dot_set : list ascii :=
  List.filter (λ c, negb (Ascii.eqb c "010"%char)) (map ascii_of_nat (seq 0 256)).

Definition location_pattern : regex :=
  RCat (RPlus (RSet digit_set)) (RStar (RSet dot_set)).

(** [re.match(pattern, string)]: [Some] match object or [None].  The match
    object is not inspected by the callers.  A pattern that is [None] and a
    subject that is not a [str] are type errors. *)
Definition re_match (pattern : option regex) (subject : cell) : result (option unit) :=
  match pattern with
  | None => Raise (TypeError "first argument must be string or compiled pattern")
  | Some r =>
      match subject with
      | CStr s => Ok (if has_prefix_match r (chars s) then Some () else None)
      | CNum _ => Raise (TypeError "expected string or bytes-like object")
      end
  end.

(** [re.search(r"(\d+).*", string)]: the leftmost match starts at the first
    digit of the subject, and its group 1, being greedy, is the whole run of
    digits that starts there.  The match object is represented by that
    group; without a digit the result is [None]. *)
Fixpoint take_digits (s : list ascii) : list ascii :=
  match s with
  | [] => []
  | c :: s' => if is_digit c then c :: take_digits s' else []
  end.

Fixpoint first_digit_run (s : list ascii) : option (list ascii) :=
  match s with
  | [] => None
  | c :: s' => if is_digit c then Some (c :: take_digits s') else first_digit_run s'
  end.

Definition re_search_digits (subject : cell) : result (option (list ascii)) :=
  match subject with
  | CStr s => Ok (first_digit_run (chars s))
  | CNum _ => Raise (TypeError "expected string or bytes-like object")
  end.

(** [m.group(1)] on the result of [re.search]: [None] has no attribute
    [group]. *)
Definition group1 (m : option (list ascii)) : result (list ascii) :=
  match m with
  | Some g => Ok g
  | None => Raise (AttributeError "'NoneType' object has no attribute 'group'")
  end.

(** [int(s)] for a string of decimal digits; any other string here raises
    [ValueError] (signs, blanks and underscores, which [int] also reads,
    never occur in a run of digits).  The integers of Python are unbounded,
    but CPython refuses to convert a string of more than
    [sys.get_int_max_str_digits()] digits, 4300 unless the interpreter is
    told otherwise, and raises [ValueError] for it. *)
Definition digit_value (c : ascii) : Z := Z.of_nat (nat_of_ascii c) - 48.

Definition int_of_digits (s : list ascii) : Z :=
  fold_left (λ acc c, 10 * acc + digit_value c) s 0.

Definition int_max_str_digits : nat := 4300.

Definition int (s : list ascii) : result Z :=
  match s with
  | [] => Raise (ValueError "invalid literal for int() with base 10")
  | _ :: _ =>
      if forallb is_digit s then
        if (length s <=? int_max_str_digits)%nat then Ok (int_of_digits s)
        else Raise (ValueError "Exceeds the limit (4300 digits) for integer string conversion")
      else Raise (ValueError "invalid literal for int() with base 10")
  end.

(** ** Tables

    A [pandas.DataFrame] is its column labels and its rows of cells; a row
    seen through [iterrows] is a [Series], the labels paired with the cells
    of the row.  Labels are strings and, as in a table read from a file,
    a label is looked up by its first occurrence. *)

Abbreviation Series := (list (string * cell)).

Record DataFrame : Type := {
  columns : list string;
  rows : list (list cell)
}.

Definition index (row : Series) : list string := map fst row.

Fixpoint lookup_label (row : Series) (label : string) : option cell :=
  match row with
  | [] => None
  | (k, v) :: row' => if String.eqb k label then Some v else lookup_label row' label
  end.

(** [row[label]] and [row.label]. *)
Definition Series_getitem (row : Series) (label : string) : result cell :=
  match lookup_label row label with
  | Some v => Ok v
  | None => Raise (KeyError (CStr label))
  end.

Definition Series_getattr (row : Series) (label : string) : result cell :=
  match lookup_label row label with
  | Some v => Ok v
  | None => Raise (AttributeError "'Series' object has no attribute")
  end.

Definition iterrows (data : DataFrame) : list Series :=
  map (λ r, combine (columns data) r) (rows data).

(** ** WellStatistic and WellStatisticList *)

Module WellStatistic.
Record t : Type := __init__ {
  datatype : string;
  variable : string;
  value : cell
}.

(** [as_dict]: the three fields under their names, in a new [dict]. *)
Definition as_dict (self : t) : gmap string cell :=
  <["value" := value self]>
    (<["variable" := CStr (variable self)]>
       (<["datatype" := CStr (datatype self)]> ∅)).
End WellStatistic.

Module WellStatisticList.
(** A [WellStatisticList] is a [list]; [search] only reads it, so it is a
    function of the list and returns the new list of the comprehension. *)
Definition search (self : list WellStatistic.t)
    (datatype variable : option string) : result (list WellStatistic.t) :=
  match datatype with
  | Some dt =>
      match variable with
      | Some var =>
          Ok (List.filter
                (λ ws, String.eqb (WellStatistic.datatype ws) dt
                       && String.eqb (WellStatistic.variable ws) var) self)
      | None =>
          Ok (List.filter (λ ws, String.eqb (WellStatistic.datatype ws) dt) self)
      end
  | None =>
      match variable with
      | Some var =>
          Ok (List.filter (λ ws, String.eqb (WellStatistic.variable ws) var) self)
      | None => Raise (ValueError "Must provide either datatype or variable or both")
      end
  end.
End WellStatisticList.

(** ** Well *)

Module Well.
Record t : Type := Build {
  location_str : cell;
  sample_id : cell;
  data : list WellStatistic.t;
  standard : bool;
  background : bool;
  location : option Z
}.

(** The constructor.  The [try] block is [int(re.search(...).group(1))];
    its handler catches [IndexError] and [ValueError] only. *)
Definition __init__ (location sample_id : cell) (data : list WellStatistic.t)
    (standard background : bool) : result t :=
  match m ← re_search_digits location; g ← group1 m; int g with
  | Ok n => Ok (Build location sample_id data standard background (Some n))
  | Raise (IndexError _) | Raise (ValueError _) =>
      Ok (Build location sample_id data standard background None)
  | Raise e => Raise e
  end.

Definition from_series (row : Series) (datatype : string)
    (standard_pattern background_pattern : option regex) : result t :=
  let variables :=
    List.filter (λ i, bool_decide (i ∉ ["Location"; "Sample"]%string)) (index row) in
  data ← for_each
            (λ var, v ← Series_getitem row var; Ok (WellStatistic.__init__ datatype var v))
            variables;
  loc ← Series_getattr row "Location";
  sam ← Series_getattr row "Sample";
  sam1 ← Series_getattr row "Sample";
  std ← re_match standard_pattern sam1;
  sam2 ← Series_getattr row "Sample";
  bg ← re_match background_pattern sam2;
  __init__ loc sam data (bool_decide (std ≠ None)) (bool_decide (bg ≠ None)).
End Well.

Definition _plate_from_dataframe (data : DataFrame)
    (standard_pattern background_pattern : option regex) : result (list Well.t) :=
  for_each
    (λ row, Well.from_series row "fluorescence intensity"
              standard_pattern background_pattern)
    (iterrows data).

(** ** Plate *)

Module Plate.
Record t : Type := __init__ {
  data : list Well.t;
  filepath : option string;
  run_datetime : option string;
  batch_id : option string;
  meta : option (gmap string cell)
}.

Definition from_dataframe (data : DataFrame)
    (run_datetime batch_id : option string) (meta : option (gmap string cell))
    (standard_pattern background_pattern : option regex) : result t :=
  wells ← _plate_from_dataframe data standard_pattern background_pattern;
  Ok (__init__ wells None run_datetime batch_id meta).

(** [pd.read_csv] and [pd.read_excel] read the file system; they are taken
    as functions from the path (and the reader's options) to a table or to
    the exception that the reader raises, which the loaders let through. *)
Section Readers.
Context {kwargs : Type}.
Variable read_csv : string → result DataFrame.
Variable read_excel : string → kwargs → result DataFrame.

Definition from_csv (filepath : string)
    (run_datetime batch_id : option string) (meta : option (gmap string cell))
    (standard_pattern background_pattern : option regex) : result t :=
  table ← read_csv filepath;
  wells ← _plate_from_dataframe table standard_pattern background_pattern;
  Ok (__init__ wells (Some filepath) run_datetime batch_id meta).

Definition from_excel (filepath : string)
    (run_datetime batch_id : option string) (meta : option (gmap string cell))
    (standard_pattern background_pattern : option regex) (kw : kwargs) : result t :=
  table ← read_excel filepath kw;
  wells ← _plate_from_dataframe table standard_pattern background_pattern;
  Ok (__init__ wells (Some filepath) run_datetime batch_id meta).
End Readers.
End Plate.

(** ** Reference *)

(** [self.data] is a [dict] or a [defaultdict(dict)]: the same items, and a
    different answer to a missing key.  The inner dictionaries are held by
    value: each analyte owns its own, as the loaders and [defaultdict]
    build them. *)
Inductive dict_kind : Type := PlainDict | DefaultDict.

Record pydict : Type := {
  kind : dict_kind;
  items : gmap cell (gmap string cell)
}.

(** [d[k]] on the outer dictionary.  A [defaultdict(dict)] answers a missing
    key by storing a new empty [dict] under it and returning that. *)
Definition pydict_getitem (d : pydict) (k : cell) : pydict * result (gmap string cell) :=
  match items d !! k with
  | Some inner => (d, Ok inner)
  | None =>
      match kind d with
      | DefaultDict => ({| kind := DefaultDict; items := <[k := ∅]> (items d) |}, Ok ∅)
      | PlainDict => (d, Raise (KeyError k))
      end
  end.

(** [d[k]] on a plain [dict] with string keys. *)
Definition dict_getitem (d : gmap string cell) (k : string) : result cell :=
  match d !! k with
  | Some v => Ok v
  | None => Raise (KeyError (CStr k))
  end.

(** [data.to_dict("records")]: one [dict] per row, label to cell, filled in
    column order. *)
Definition dict_setitem (d : gmap string cell) (kv : string * cell) : gmap string cell :=
  <[kv.1 := kv.2]> d.

Definition dict_of_items (kvs : list (string * cell)) : gmap string cell :=
  fold_left dict_setitem kvs ∅.

Definition to_dict_records (data : DataFrame) : list (gmap string cell) :=
  map dict_of_items (iterrows data).

(** The dictionary comprehension of [_ref_from_dataframe], entry after
    entry: a later entry with the same key replaces the earlier one. *)
Fixpoint ref_comprehension (acc : gmap cell (gmap string cell))
    (records : list (gmap string cell)) : result (gmap cell (gmap string cell)) :=
  match records with
  | [] => Ok acc
  | x :: records' =>
      a ← dict_getitem x "analyte";
      ref_comprehension
        (<[a := filter (λ kv, kv.1 ≠ "analyte"%string) x]> acc) records'
  end.

Definition _ref_from_dataframe (data : DataFrame) : result pydict :=
  match ref_comprehension ∅ (to_dict_records data) with
  | Ok d => Ok {| kind := PlainDict; items := d |}
  | Raise (KeyError _) =>
      Raise (KeyError (CStr "Dataframe must contain the column 'analyte'"))
  | Raise e => Raise e
  end.

Inductive get_value : Type :=
| Scalar (v : cell)
| StandardSeries (s : gmap string cell)
| AnalyteSeries (s : gmap cell cell).

Module Reference.
Record t : Type := Build { data : pydict }.

(** [self.data = data or defaultdict(dict)]: [None] and an empty dictionary
    are both false. *)
Definition __init__ (data : option pydict) : t :=
  match data with
  | Some d =>
      if bool_decide (items d = ∅)
      then Build {| kind := DefaultDict; items := ∅ |}
      else Build d
  | None => Build {| kind := DefaultDict; items := ∅ |}
  end.

Definition from_dataframe (data : DataFrame) : result t :=
  d ← _ref_from_dataframe data;
  Ok (__init__ (Some d)).

Section Readers.
Context {kwargs : Type}.
Variable read_csv : string → result DataFrame.
Variable read_excel : string → kwargs → result DataFrame.

Definition from_csv (filepath : string) : result t :=
  table ← read_csv filepath;
  d ← _ref_from_dataframe table;
  Ok (__init__ (Some d)).

Definition from_excel (filepath : string) (kw : kwargs) : result t :=
  table ← read_excel filepath kw;
  d ← _ref_from_dataframe table;
  Ok (__init__ (Some d)).
End Readers.

(** [self.data[analyte][standard] = value]. *)
Definition put (self : t) (analyte standard : string) (value : cell) : t * result unit :=
  let '(d, r) := pydict_getitem (data self) (CStr analyte) in
  match r with
  | Ok inner =>
      (Build {| kind := kind d;
                items := <[CStr analyte := <[standard := value]> inner]> (items d) |},
       Ok ())
  | Raise e => (Build d, Raise e)
  end.

(** The body of the [try] block of [get].  With the standard alone, the
    comprehension reads [self.data[a]] for the keys [a] of [self.data]
    only, so no key is ever missing from the outer dictionary there. *)
Definition get_body (d : pydict) (analyte standard : option string)
    : pydict * result get_value :=
  match analyte with
  | Some a =>
      match standard with
      | Some s =>
          let '(d', r) := pydict_getitem d (CStr a) in
          (d', inner ← r; v ← dict_getitem inner s; Ok (Scalar v))
      | None =>
          let '(d', r) := pydict_getitem d (CStr a) in
          (d', inner ← r; Ok (StandardSeries inner))
      end
  | None =>
      match standard with
      | Some s =>
          (d, kvs ← for_each
                     (λ kv, v ← dict_getitem kv.2 s; Ok (kv.1, v))
                     (map_to_list (items d));
              Ok (AnalyteSeries (list_to_map kvs)))
      | None => (d, Raise (ValueError "Must provide either analyte, standard, or both"))
      end
  end.

Definition get (self : t) (analyte standard : option string) : t * result get_value :=
  let '(d, r) := get_body (data self) analyte standard in
  (Build d,
   match r with
   | Raise (KeyError _) => Raise (KeyError (CStr "Invalid analyte/standard, does not exist."))
   | _ => r
   end).

(** [pd.DataFrame(self.data).T]: the table with one row per analyte and one
    column per standard, read off the stored items. *)
Definition dataframe (self : t) : t * gmap cell (gmap string cell) :=
  (self, items (data self)).
End Reference.

(** ** The console script ([platemate/cli.py]) *)

(** [s * n] on strings. *)
Fixpoint str_mul (s : string) (n : nat) : string :=
  match n with
  | O => ""
  | S n' => s ++ str_mul s n'
  end.

Module cli.
(** [click.echo] writes its message and a newline to the standard output,
    which is the list of the lines written so far. *)
Definition echo (stdout : list string) (message : string) : list string :=
  stdout ++ [message].

Definition main (stdout : list string) : list string :=
  let stdout := echo stdout "platemate" in
  let stdout := echo stdout (str_mul "=" (String.length "platemate")) in
  echo stdout "Python package for plate based assays like ELISAs or Luminex".
End cli.

(** ** Vocabulary of the specification *)

(** The value stored for an analyte and a standard, if any. *)
Definition stored_value (self : Reference.t) (a : cell) (s : string) : option cell :=
  inner ← items (Reference.data self) !! a; inner !! s.

(** A string of ASCII characters, a cell that is one or is a number, a row
    and a table of such cells. *)
Definition ascii_only (s : string) : Prop :=
  Forall (λ c, (nat_of_ascii c < 128)%nat) (chars s).

Definition ascii_cell (c : cell) : Prop :=
  match c with
  | CStr s => ascii_only s
  | CNum _ => True
  end.

Definition ascii_row (row : Series) : Prop := Forall (λ kv, ascii_cell kv.2) row.

Definition ascii_table (table : DataFrame) : Prop :=
  Forall (Forall ascii_cell) (rows table).

(** The location that the constructor of [Well] stores for a first run of
    digits [d]: its value, or nothing when [int] refuses the run for its
    length and the handler of the constructor takes over. *)
Definition location_of_run (d : list ascii) : option Z :=
  if (length d <=? int_max_str_digits)%nat then Some (int_of_digits d) else None.

(** A [Reference] whose inner dictionaries are its own: built without data
    or by a loader, and changed since through its methods only.  Such a
    [Reference] has one inner dictionary per analyte, which is what the
    items held by value describe.  The constructor keeps a dictionary that
    its caller supplies as it is, and the caller may have put one inner
    dictionary under several analytes. *)
Inductive module_built : Reference.t → Prop :=
| built_without_data : module_built (Reference.__init__ None)
| built_by_loader table self :
    Reference.from_dataframe table = Ok self → module_built self
| built_put self a s v :
    module_built self → module_built (Reference.put self a s v).1
| built_get self analyte standard :
    module_built self → module_built (Reference.get self analyte standard).1.


(** "[initials]-then-[label] followed by one or more digits at the start of
    the string": one of the initials, the rest of the word, a non-empty run
    of digits, and then anything. *)
Definition label_digits_prefix (initials label : string) (s : string) : Prop :=
  ∃ (c : ascii) (d tail : list ascii),
    In c (chars initials) ∧ d ≠ [] ∧ Forall (λ x, is_digit x = true) d
    ∧ chars s = c :: chars label ++ d ++ tail.

(** A row that [from_series] can turn into a well, given the types that
    the constructor of [Well] declares: its location and its sample are
    strings.  The location moreover holds a digit. *)
Definition row_with_location (row : Series) : Prop :=
  ∃ loc sam, lookup_label row "Location" = Some (CStr loc)
             ∧ lookup_label row "Sample" = Some (CStr sam)
             ∧ Exists (λ c, is_digit c = true) (chars loc).

(** The statistics that a row stands for: one per field other than the
    location and the sample, in the order of the fields. *)
Definition statistics_of_row (datatype : string) (row : Series) : list WellStatistic.t :=
  map (λ kv, WellStatistic.__init__ datatype kv.1 kv.2)
      (filter (λ kv, kv.1 ∉ ["Location"; "Sample"]%string) row).

(** The analyte of a row of a reference table and the entry that the row
    stands for: its cells under the labels other than ["analyte"]. *)
Definition row_analyte (table : DataFrame) (r : list cell) : option cell :=
  dict_of_items (combine (columns table) r) !! ("analyte" : string).

Definition row_entry (table : DataFrame) (r : list cell) : gmap string cell :=
  filter (λ kv, kv.1 ≠ "analyte"%string) (dict_of_items (combine (columns table) r)).

(** The invariant of the representation of a table: every row has one cell
    per column.  A table read from a file has distinct labels as well. *)
Definition rectangular (table : DataFrame) : Prop :=
  Forall (λ r, length r = length (columns table)) (rows table).

Definition well_formed (table : DataFrame) : Prop :=
  NoDup (columns table) ∧ rectangular table.

(** The errors of the specification, as the module raises them. *)
Definition InvalidArgument_search : exn :=
  ValueError "Must provide either datatype or variable or both".

Definition InvalidArgument_get : exn :=
  ValueError "Must provide either analyte, standard, or both".

Definition NotFound : exn :=
  KeyError (CStr "Invalid analyte/standard, does not exist.").

Definition SchemaError : exn :=
  KeyError (CStr "Dataframe must contain the column 'analyte'").

(** ** Sample inputs *)

(** The two rows of the scenario of the specification, and their table. *)
Definition row_Standard1 : Series :=
  [("Location", CStr "A1"); ("Sample", CStr "Standard1");
   ("X", CNum 10); ("Y", CNum 20)]%string.

Definition row_Unknown : Series :=
  [("Location", CStr "B2"); ("Sample", CStr "Unknown");
   ("X", CNum 5); ("Y", CNum 15)]%string.

Definition table_scenario : DataFrame :=
  {| columns := ["Location"; "Sample"; "X"; "Y"]%string;
     rows := [[CStr "A1"; CStr "Standard1"; CNum 10; CNum 20];
              [CStr "B2"; CStr "Unknown"; CNum 5; CNum 15]] |}.

(** A table with the two required columns whose only location has no
    digit. *)
Definition table_NoDigits : DataFrame :=
  {| columns := ["Location"; "Sample"; "X"]%string;
     rows := [[CStr "NoDigits"; CStr "Unknown"; CNum 5]] |}.

(** A reference table with the analyte ["A"] in two rows, and one without
    the column ["analyte"] and without rows. *)
Definition table_reference : DataFrame :=
  {| columns := ["analyte"; "S1"; "S2"]%string;
     rows := [[CStr "A"; CNum 1; CNum 2];
              [CStr "A"; CNum 5; CNum 6];
              [CStr "B"; CNum 3; CNum 4]] |}.

Definition table_no_analyte_empty : DataFrame :=
  {| columns := ["standard"; "value"]%string; rows := [] |}.

Definition table_no_analyte : DataFrame :=
  {| columns := ["standard"; "value"]%string; rows := [[CStr "S1"; CNum 1]] |}.

(** * Properties *)

(** ** The result monad and loops *)

Lemma bind_Ok {A B} (r : result A) (k : A → result B) (b : B) :
  r ≫= k = Ok b ↔ ∃ a, r = Ok a ∧ k a = Ok b.
Proof.
  destruct r as [a|e]; simpl.
  - split; [eauto | intros (a' & [= <-] & H); exact H].
  - split; [discriminate | intros (a' & [=] & _)].
Qed.

Lemma for_each_Ok_length {A B} (f : A → result B) xs ys :
  for_each f xs = Ok ys → length ys = length xs.
Proof.
  revert ys; induction xs as [|x xs IH]; intros ys; simpl.
  - intros [= <-]; reflexivity.
  - intros (y & _ & (ys' & Hys & [= <-])%bind_Ok)%bind_Ok.
    simpl; f_equal; auto.
Qed.

Lemma for_each_Raise {A B} (f : A → result B) xs x e :
  x ∈ xs → (∀ y, y ∈ xs → f y = Raise e ∨ is_Ok (f y)) → f x = Raise e →
  for_each f xs = Raise e.
Proof.
  induction xs as [|x0 xs IH]; intros Hin Hall Hx.
  - inversion Hin.
  - simpl. destruct (Hall x0 (list_elem_of_here _ _)) as [H0|[y H0]];
      rewrite H0; [reflexivity|].
    simpl. apply elem_of_cons in Hin as [->|Hin]; [congruence|].
    rewrite IH; [reflexivity|assumption| |assumption].
    intros z Hz; apply Hall; right; exact Hz.
Qed.

(** ** WellStatisticList.search *)

Lemma List_filter_stdpp {A} (p : A → bool) (P : A → Prop) `{∀ x, Decision (P x)}
    (l : list A) :
  (∀ x, p x = true ↔ P x) → List.filter p l = filter P l.
Proof.
  intros Hp; induction l as [|x l IH]; simpl; [reflexivity|].
  rewrite filter_cons. destruct (decide (P x)) as [HP|HP].
  - apply Hp in HP as ->. f_equal; exact IH.
  - destruct (p x) eqn:E; [apply Hp in E; contradiction | exact IH].
Qed.

(** C7.  [search] without a datatype and without a variable raises the
    [ValueError] of the module; with a datatype it returns the elements of
    the list whose datatype is the given one, in the order of the list and
    as often as they occur; with both filters, those that match both; with
    a variable alone, those with that variable.  The result is a sublist of
    the receiver, which [search], a function of it, leaves as it is. *)
Theorem search_contract (self : list WellStatistic.t) :
  WellStatisticList.search self None None = Raise InvalidArgument_search
  ∧ (∀ dt, WellStatisticList.search self (Some dt) None
           = Ok (filter (λ ws, WellStatistic.datatype ws = dt) self))
  ∧ (∀ dt var, WellStatisticList.search self (Some dt) (Some var)
           = Ok (filter (λ ws, WellStatistic.datatype ws = dt
                               ∧ WellStatistic.variable ws = var) self))
  ∧ (∀ var, WellStatisticList.search self None (Some var)
           = Ok (filter (λ ws, WellStatistic.variable ws = var) self))
  ∧ (∀ dt var out, WellStatisticList.search self dt var = Ok out → sublist out self).
Proof.
  repeat split.
  - intros dt; simpl; f_equal. apply List_filter_stdpp.
    intros ws; apply String.eqb_eq.
  - intros dt var; simpl; f_equal. apply List_filter_stdpp.
    intros ws. rewrite andb_true_iff, !String.eqb_eq. reflexivity.
  - intros var; simpl; f_equal. apply List_filter_stdpp.
    intros ws; apply String.eqb_eq.
  - intros [dt|] [var|] out; simpl; intros [= <-];
      match goal with
      | |- sublist (List.filter ?p _) _ =>
          rewrite (List_filter_stdpp p (λ x, p x = true)) by reflexivity;
          apply sublist_filter
      end.
Qed.

(** ** Well.__init__: the location *)

Lemma take_digits_run (d post : list ascii) :
  Forall (λ c, is_digit c = true) d →
  (∀ c post', post = c :: post' → is_digit c = false) →
  take_digits (d ++ post) = d.
Proof.
  intros Hd Hpost; induction Hd as [|c d Hc _ IH]; simpl.
  - destruct post as [|c post']; [reflexivity|].
    simpl; rewrite (Hpost c post' eq_refl); reflexivity.
  - rewrite Hc, IH; reflexivity.
Qed.

Lemma first_digit_run_spec (pre d post : list ascii) :
  Forall (λ c, is_digit c = false) pre →
  d ≠ [] → Forall (λ c, is_digit c = true) d →
  (∀ c post', post = c :: post' → is_digit c = false) →
  first_digit_run (pre ++ d ++ post) = Some d.
Proof.
  intros Hpre Hne Hd Hpost; induction Hpre as [|c pre Hc _ IH]; simpl.
  - destruct Hd as [|c d Hc Hd]; [contradiction|].
    simpl; rewrite Hc; f_equal; f_equal.
    apply take_digits_run; assumption.
  - rewrite Hc; exact IH.
Qed.

Lemma take_digits_split (s : list ascii) :
  ∃ post, s = take_digits s ++ post
          ∧ Forall (λ c, is_digit c = true) (take_digits s)
          ∧ (∀ c post', post = c :: post' → is_digit c = false).
Proof.
  induction s as [|c s (post & Hs & Hd & Hpost)]; simpl.
  - exists []; split; [reflexivity|]. split; [constructor | discriminate].
  - destruct (is_digit c) eqn:E.
    + exists post; split; [simpl; f_equal; exact Hs|].
      split; [constructor; assumption | exact Hpost].
    + exists (c :: s); split; [reflexivity|].
      split; [constructor | intros c' post' [= <- _]; exact E].
Qed.

(** What [first_digit_run] returns is the first run of digits: nothing
    before it is a digit, and it ends at the end of the string or at a
    character that is not a digit. *)
Lemma first_digit_run_inv (s d : list ascii) :
  first_digit_run s = Some d →
  ∃ pre post, s = pre ++ d ++ post
    ∧ Forall (λ c, is_digit c = false) pre
    ∧ d ≠ [] ∧ Forall (λ c, is_digit c = true) d
    ∧ (∀ c post', post = c :: post' → is_digit c = false).
Proof.
  induction s as [|c s IH]; simpl; [discriminate|].
  destruct (is_digit c) eqn:E.
  - intros [= <-]. destruct (take_digits_split s) as (post & Hs & Hd & Hpost).
    exists [], post; split; [simpl; f_equal; exact Hs|].
    split; [constructor|]. split; [discriminate|].
    split; [constructor; assumption | exact Hpost].
  - intros (pre & post & -> & Hpre & Hrest)%IH.
    exists (c :: pre), post; split; [reflexivity|].
    split; [constructor; assumption | exact Hrest].
Qed.

Lemma first_digit_run_None (s : list ascii) :
  first_digit_run s = None ↔ Forall (λ c, is_digit c = false) s.
Proof.
  induction s as [|c s IH]; simpl.
  - split; [constructor | reflexivity].
  - destruct (is_digit c) eqn:E.
    + split; [discriminate | intros H; inversion H; congruence].
    + rewrite IH; split; [intros H; constructor; assumption | intros H; inversion H; assumption].
Qed.

Lemma int_run (d : list ascii) :
  d ≠ [] → Forall (λ c, is_digit c = true) d →
  int d = if (length d <=? int_max_str_digits)%nat then Ok (int_of_digits d)
          else Raise (ValueError "Exceeds the limit (4300 digits) for integer string conversion").
Proof.
  intros Hne Hd; unfold int; destruct d as [|c d]; [contradiction|].
  replace (forallb is_digit (c :: d)) with true; [reflexivity|].
  symmetry; apply forallb_forall; intros x Hx.
  rewrite List.Forall_forall in Hd; apply Hd, Hx.
Qed.

Lemma int_digits (d : list ascii) :
  d ≠ [] → Forall (λ c, is_digit c = true) d →
  (length d ≤ int_max_str_digits)%nat → int d = Ok (int_of_digits d).
Proof.
  intros Hne Hd Hlen. rewrite (int_run d Hne Hd).
  apply Nat.leb_le in Hlen. rewrite Hlen. reflexivity.
Qed.

(** The constructor on a string with a first run of digits [d]: the handler
    turns the refusal of [int] into a null location. *)
Lemma Well_init_run (s : string) (d : list ascii) (sid : cell)
    (data : list WellStatistic.t) (std bg : bool) :
  first_digit_run (chars s) = Some d →
  Well.__init__ (CStr s) sid data std bg
  = Ok (Well.Build (CStr s) sid data std bg (location_of_run d)).
Proof.
  intros Hd. unfold Well.__init__, location_of_run; simpl. rewrite Hd; simpl.
  destruct (first_digit_run_inv _ _ Hd) as (pre & post & _ & _ & Hne & Hall & _).
  rewrite (int_run d Hne Hall).
  destruct (length d <=? int_max_str_digits)%nat; reflexivity.
Qed.

Lemma ascii_only_check (s : string) :
  forallb (λ c, (nat_of_ascii c <? 128)%nat) (chars s) = true → ascii_only s.
Proof.
  intros H. apply List.Forall_forall. intros c Hc.
  apply Nat.ltb_lt. revert c Hc. apply forallb_forall. exact H.
Qed.

(** The value read by [int] is the decimal one: a further digit multiplies
    by ten and adds the digit. *)
Lemma int_of_digits_snoc (d : list ascii) (c : ascii) :
  int_of_digits (d ++ [c]) = 10 * int_of_digits d + digit_value c.
Proof. unfold int_of_digits; rewrite fold_left_app; reflexivity. Qed.

Lemma digit_value_range (c : ascii) : is_digit c = true → 0 ≤ digit_value c ≤ 9.
Proof.
  unfold is_digit, in_set, digit_set; simpl; intros H.
  repeat (apply orb_true_iff in H as [H|H];
          [apply Ascii.eqb_eq in H; subst c; vm_compute; split; discriminate|]).
  discriminate.
Qed.

(** The first part of C1, which holds: a location of ASCII characters with
    a digit gets, as its [location], the decimal value of its first run of
    digits, when the run has no more digits than [int] accepts. *)
Theorem Well_init_location_first_run (loc : string) (pre d post : list ascii)
    (sid : cell) (data : list WellStatistic.t) (std bg : bool) :
  ascii_only loc →
  chars loc = pre ++ d ++ post →
  Forall (λ c, is_digit c = false) pre →
  d ≠ [] → Forall (λ c, is_digit c = true) d →
  (∀ c post', post = c :: post' → is_digit c = false) →
  (length d ≤ int_max_str_digits)%nat →
  Well.__init__ (CStr loc) sid data std bg
    = Ok (Well.Build (CStr loc) sid data std bg (Some (int_of_digits d))).
Proof.
  intros _ Hloc Hpre Hne Hd Hpost Hlen.
  rewrite (Well_init_run loc d)
    by (rewrite Hloc; apply first_digit_run_spec; assumption).
  unfold location_of_run. apply Nat.leb_le in Hlen. rewrite Hlen. reflexivity.
Qed.

Example Well_init_A12 :
  Well.location <$> Well.__init__ (CStr "A12") (CStr "Unknown") [] false false
    = Ok (Some 12).
Proof. reflexivity. Qed.

Example Well_init_12B :
  Well.location <$> Well.__init__ (CStr "12B") (CStr "Unknown") [] false false
    = Ok (Some 12).
Proof. reflexivity. Qed.

(** The second part of C1 fails on every location without a digit:
    [re.search] returns [None], [None.group] raises [AttributeError], and
    the handler of the constructor does not catch it. *)
Theorem Well_init_without_digit (loc : string) (sid : cell)
    (data : list WellStatistic.t) (std bg : bool) :
  Forall (λ c, is_digit c = false) (chars loc) →
  Well.__init__ (CStr loc) sid data std bg
    = Raise (AttributeError "'NoneType' object has no attribute 'group'").
Proof.
  intros H%first_digit_run_None. unfold Well.__init__; simpl.
  rewrite H; reflexivity.
Qed.

(** C1.  The constructor on the location ["NoDigits"], which has no digit:
    the specification promises a well with a null location, the code raises
    [AttributeError]. *)
Theorem Well_init_NoDigits_raises :
  Well.__init__ (CStr "NoDigits") (CStr "Unknown") [] false false
    = Raise (AttributeError "'NoneType' object has no attribute 'group'").
Proof. reflexivity. Qed.

(** ** Regular expressions: the matcher decides the language *)

Lemma in_set_In (c : ascii) (cs : list ascii) : in_set c cs = true ↔ In c cs.
Proof.
  unfold in_set; rewrite existsb_exists; split.
  - intros (x & Hx & ->%Ascii.eqb_eq); exact Hx.
  - intros H; exists c; split; [exact H | apply Ascii.eqb_refl].
Qed.

Lemma matches_nil_nullable (r : regex) (s : list ascii) :
  matches r s → s = [] → nullable r = true.
Proof.
  induction 1 as [ | | r1 r2 u v _ IH1 _ IH2 | r1 r2 u _ IH | r1 r2 u _ IH | | ];
    intros Hs; simpl; try reflexivity; try discriminate.
  - apply app_eq_nil in Hs as [-> ->]. rewrite IH1, IH2; reflexivity.
  - rewrite IH by assumption; reflexivity.
  - rewrite IH by assumption; apply orb_true_r.
Qed.

Lemma nullable_matches (r : regex) : nullable r = true ↔ matches r [].
Proof.
  split; [|intros H; exact (matches_nil_nullable r [] H eq_refl)].
  induction r as [ | | cs | r1 IH1 r2 IH2 | r1 IH1 r2 IH2 | r IH ]; simpl;
    try discriminate.
  - constructor.
  - intros [H1 H2]%andb_true_iff.
    change (@nil ascii) with (@nil ascii ++ []); constructor; auto.
  - intros [H|H]%orb_true_iff; [apply matches_alt_l | apply matches_alt_r]; auto.
  - constructor.
Qed.

Lemma deriv_sound (c : ascii) (r : regex) (s : list ascii) :
  matches (deriv c r) s → matches r (c :: s).
Proof.
  revert s; induction r as [ | | cs | r1 IH1 r2 IH2 | r1 IH1 r2 IH2 | r IH ];
    intros s; simpl.
  - inversion 1.
  - inversion 1.
  - destruct (in_set c cs) eqn:E; inversion 1; subst. constructor; exact E.
  - assert (Hcat : matches (RCat (deriv c r1) r2) s → matches (RCat r1 r2) (c :: s)).
    { inversion 1; subst.
      change (c :: u ++ v) with ((c :: u) ++ v); constructor; auto. }
    destruct (nullable r1) eqn:E; [|exact Hcat].
    inversion 1; subst; [auto|].
    change (c :: s) with ([] ++ c :: s); constructor; [|auto].
    apply nullable_matches; exact E.
  - inversion 1; subst; [apply matches_alt_l | apply matches_alt_r]; auto.
  - inversion 1; subst.
    change (c :: u ++ v) with ((c :: u) ++ v); constructor; auto.
Qed.

Lemma deriv_complete (r : regex) (t : list ascii) :
  matches r t → ∀ c s, t = c :: s → matches (deriv c r) s.
Proof.
  induction 1 as [ | c0 cs Hc | r1 r2 u v H1 IH1 H2 IH2 | r1 r2 u _ IH
                 | r1 r2 u _ IH | | r u v H1 IH1 H2 IH2 ];
    intros c s Ht; simpl; try discriminate.
  - injection Ht as -> <-. rewrite Hc; constructor.
  - destruct u as [|c' u]; simpl in Ht.
    + rewrite (matches_nil_nullable r1 [] H1 eq_refl).
      apply matches_alt_r; auto.
    + injection Ht as -> <-.
      assert (matches (RCat (deriv c r1) r2) (u ++ v)) by (constructor; auto).
      destruct (nullable r1); [apply matches_alt_l|]; assumption.
  - apply matches_alt_l; auto.
  - apply matches_alt_r; auto.
  - destruct u as [|c' u]; simpl in Ht.
    + exact (IH2 c s Ht).
    + injection Ht as -> <-. constructor; auto.
Qed.

Lemma has_prefix_match_spec (r : regex) (s : list ascii) :
  has_prefix_match r s = true ↔ ∃ p q, s = p ++ q ∧ matches r p.
Proof.
  revert r; induction s as [|c s IH]; intros r; simpl.
  - rewrite orb_false_r, nullable_matches; split.
    + intros H; exists [], []; auto.
    + intros (p & q & Hs & H). symmetry in Hs.
      apply app_eq_nil in Hs as [-> _]; exact H.
  - rewrite orb_true_iff, IH, nullable_matches; split.
    + intros [H|(p & q & -> & H)].
      * exists [], (c :: s); auto.
      * exists (c :: p), q; split; [reflexivity | apply deriv_sound; exact H].
    + intros ([|c' p] & q & Hs & H); [left; exact H|].
      injection Hs as -> ->. right; exists p, q; split; [reflexivity|].
      exact (deriv_complete r (c' :: p) H c' p eq_refl).
Qed.

(** The languages of the pieces of the default patterns. *)

Lemma matches_RSet (cs : list ascii) (p : list ascii) :
  matches (RSet cs) p ↔ ∃ c, p = [c] ∧ In c cs.
Proof.
  split.
  - inversion 1; subst. eexists; split; [reflexivity | apply in_set_In; assumption].
  - intros (c & -> & H); constructor; apply in_set_In; exact H.
Qed.

Lemma matches_RLit (w p : list ascii) : matches (RLit w) p ↔ p = w.
Proof.
  revert p; induction w as [|c w IH]; intros p; simpl.
  - split; [inversion 1; reflexivity | intros ->; constructor].
  - split.
    + inversion 1 as [ | | ? ? u v Hu Hv | | | | ]; subst.
      apply matches_RSet in Hu as (c' & -> & [<-|[]]).
      apply IH in Hv as ->; reflexivity.
    + intros ->. change (c :: w) with ([c] ++ w); constructor.
      * apply matches_RSet; exists c; split; [reflexivity | left; reflexivity].
      * apply IH; reflexivity.
Qed.

Lemma matches_RStar_RSet (cs : list ascii) (p : list ascii) :
  matches (RStar (RSet cs)) p ↔ Forall (λ c, In c cs) p.
Proof.
  split.
  - intros H; remember (RStar (RSet cs)) as r eqn:Er.
    induction H as [ | | | | | | r u v H1 _ H2 IH2 ]; try discriminate.
    + constructor.
    + injection Er as ->. apply matches_RSet in H1 as (c & -> & Hc).
      constructor; auto.
  - induction 1 as [|c p Hc _ IH]; [constructor|].
    change (c :: p) with ([c] ++ p); constructor; [|exact IH].
    apply matches_RSet; eauto.
Qed.

Lemma matches_label_digits (initials label : string) (p : list ascii) :
  matches (RCat (RSet (chars initials))
             (RCat (RLit (chars label)) (RPlus (RSet digit_set)))) p
  ↔ ∃ c d, In c (chars initials) ∧ d ≠ [] ∧ Forall (λ x, is_digit x = true) d
           ∧ p = c :: chars label ++ d.
Proof.
  split.
  - inversion 1 as [ | | ? ? u v Hu Hv | | | | ]; subst.
    apply matches_RSet in Hu as (c & -> & Hc).
    inversion Hv as [ | | ? ? u' v' Hu' Hv' | | | | ]; subst.
    apply matches_RLit in Hu' as ->.
    inversion Hv' as [ | | ? ? d1 d2 Hd1 Hd2 | | | | ]; subst.
    apply matches_RSet in Hd1 as (c1 & -> & Hc1).
    apply matches_RStar_RSet in Hd2.
    exists c, (c1 :: d2); split; [exact Hc|]; split; [discriminate|].
    split; [|reflexivity].
    constructor; [apply in_set_In; exact Hc1|].
    eapply Forall_impl; [exact Hd2|]. intros x Hx; apply in_set_In; exact Hx.
  - intros (c & d & Hc & Hne & Hd & ->).
    change (c :: chars label ++ d) with ([c] ++ (chars label ++ d)).
    constructor; [apply matches_RSet; eauto|].
    constructor; [apply matches_RLit; reflexivity|].
    destruct Hd as [|c1 d Hc1 Hd]; [contradiction|].
    change (c1 :: d) with ([c1] ++ d); constructor.
    + apply matches_RSet; exists c1; split; [reflexivity | apply in_set_In; exact Hc1].
    + apply matches_RStar_RSet. eapply Forall_impl; [exact Hd|].
      intros x Hx; apply in_set_In; exact Hx.
Qed.

Lemma has_prefix_match_label_digits (initials label s : string) :
  has_prefix_match
    (RCat (RSet (chars initials)) (RCat (RLit (chars label)) (RPlus (RSet digit_set))))
    (chars s) = true
  ↔ label_digits_prefix initials label s.
Proof.
  rewrite has_prefix_match_spec; unfold label_digits_prefix; split.
  - intros (p & q & Hs & (c & d & Hc & Hne & Hd & ->)%matches_label_digits).
    exists c, d, q; split; [exact Hc|]; split; [exact Hne|]; split; [exact Hd|].
    rewrite Hs; simpl; rewrite <- app_assoc; reflexivity.
  - intros (c & d & tail & Hc & Hne & Hd & Hs).
    exists (c :: chars label ++ d), tail; split.
    + rewrite Hs; simpl; rewrite <- app_assoc; reflexivity.
    + apply matches_label_digits; eauto 10.
Qed.

(** [first_digit_run] and the pattern of the location: [re.search] looks
    for a suffix of the subject that the pattern matches at its start, and
    there is one exactly when [first_digit_run] finds a run. *)
Lemma has_prefix_match_location (s : list ascii) :
  has_prefix_match location_pattern s = true
  ↔ ∃ c s', s = c :: s' ∧ is_digit c = true.
Proof.
  rewrite has_prefix_match_spec; split.
  - intros (p & q & -> & H).
    inversion H as [ | | ? ? u v Hu _ | | | | ]; subst.
    inversion Hu as [ | | ? ? u1 u2 Hu1 _ | | | | ]; subst.
    apply matches_RSet in Hu1 as (c & -> & Hc%in_set_In).
    simpl; eauto.
  - intros (c & s' & -> & Hc). exists [c], s'; split; [reflexivity|].
    change [c] with (([c] ++ []) ++ @nil ascii).
    constructor; [|constructor].
    constructor; [constructor; exact Hc | constructor].
Qed.

Lemma first_digit_run_search (s : list ascii) :
  first_digit_run s = None
  ↔ ∀ pre rest, s = pre ++ rest → has_prefix_match location_pattern rest = false.
Proof.
  rewrite first_digit_run_None; split.
  - intros Hall pre rest ->.
    destruct (has_prefix_match location_pattern rest) eqn:E; [|reflexivity].
    apply has_prefix_match_location in E as (c & s' & -> & Hc).
    apply Forall_app in Hall as [_ Hall]. inversion Hall; congruence.
  - intros H; induction s as [|c s IH]; constructor.
    + destruct (is_digit c) eqn:E; [|reflexivity].
      rewrite <- (H [] (c :: s) eq_refl); symmetry.
      apply has_prefix_match_location; eauto.
    + apply IH. intros pre rest ->. exact (H (c :: pre) rest eq_refl).
Qed.

(** ** Well.from_series: the flags *)

Lemma Well_init_Ok (loc sid : cell) (data : list WellStatistic.t)
    (std bg : bool) (w : Well.t) :
  Well.__init__ loc sid data std bg = Ok w →
  w = Well.Build loc sid data std bg (Well.location w).
Proof.
  unfold Well.__init__.
  destruct (_ ≫= _) as [n|[]]; intros [= <-]; reflexivity.
Qed.

Lemma from_series_Ok (row : Series) (dt : string) (sp bp : option regex) (w : Well.t) :
  Well.from_series row dt sp bp = Ok w →
  ∃ loc sam std bg data,
    lookup_label row "Location" = Some loc
    ∧ lookup_label row "Sample" = Some sam
    ∧ re_match sp sam = Ok std ∧ re_match bp sam = Ok bg
    ∧ for_each (λ var, v ← Series_getitem row var; Ok (WellStatistic.__init__ dt var v))
        (List.filter (λ i, bool_decide (i ∉ ["Location"; "Sample"]%string)) (index row))
      = Ok data
    ∧ w = Well.Build loc sam data (bool_decide (std ≠ None)) (bool_decide (bg ≠ None))
            (Well.location w).
Proof.
  unfold Well.from_series, Series_getattr.
  intros (data & Hdata & H)%bind_Ok.
  destruct (lookup_label row "Location") as [loc|]; [|discriminate].
  destruct (lookup_label row "Sample") as [sam|]; [|discriminate].
  simpl in H.
  apply bind_Ok in H as (std & Hstd & (bg & Hbg & H%Well_init_Ok)%bind_Ok).
  exists loc, sam, std, bg, data; auto 10.
Qed.

Lemma re_match_Ok (r : regex) (sam : cell) (m : option unit) :
  re_match (Some r) sam = Ok m →
  ∃ s, sam = CStr s ∧ bool_decide (m ≠ None) = has_prefix_match r (chars s).
Proof.
  destruct sam as [s|n]; simpl; [|discriminate].
  intros [= <-]; exists s; split; [reflexivity|].
  destruct (has_prefix_match r (chars s)); reflexivity.
Qed.

Lemma label_digits_prefix_exclusive (s : string) :
  label_digits_prefix "Ss" "tandard" s → label_digits_prefix "Bb" "ackground" s → False.
Proof.
  intros (c & d & t & Hc & _ & _ & Hs) (c' & d' & t' & Hc' & _ & _ & Hs').
  rewrite Hs in Hs'; injection Hs' as -> _.
  simpl in Hc, Hc'.
  destruct Hc as [<-|[<-|[]]]; destruct Hc' as [?|[?|[]]]; discriminate.
Qed.

Lemma from_series_flags (row : Series) (dt : string) (sp bp : regex) (w : Well.t) :
  Well.from_series row dt (Some sp) (Some bp) = Ok w →
  ∃ s, lookup_label row "Sample" = Some (CStr s)
    ∧ Well.sample_id w = CStr s
    ∧ Well.standard w = has_prefix_match sp (chars s)
    ∧ Well.background w = has_prefix_match bp (chars s).
Proof.
  intros (loc & sam & std & bg & data & _ & Hsam & Hstd & Hbg & _ & Hw)%from_series_Ok.
  apply re_match_Ok in Hstd as (s & -> & Hstd).
  apply re_match_Ok in Hbg as (s' & [= <-] & Hbg).
  exists s. rewrite Hw; simpl. rewrite Hstd, Hbg. auto.
Qed.

Lemma from_series_default_exclusive (row : Series) (dt : string) (w : Well.t) :
  Well.from_series row dt (Some standard_pattern_default)
    (Some background_pattern_default) = Ok w →
  ¬ (Well.standard w = true ∧ Well.background w = true).
Proof.
  intros (s & _ & _ & Hs & Hb)%from_series_flags [Hs' Hb'].
  rewrite Hs' in Hs; rewrite Hb' in Hb.
  symmetry in Hs, Hb.
  apply has_prefix_match_label_digits in Hs, Hb.
  exact (label_digits_prefix_exclusive s Hs Hb).
Qed.

(** C5.  With the default patterns, the [standard] flag of a well built by
    [from_series] is true exactly when the sample identifier starts with
    [Standard] or [standard] and one or more digits, and the [background]
    flag exactly when it starts with [Background] or [background] and one
    or more digits.  The match is anchored at the start and not at the
    end: a prefix of the identifier is in the language of the pattern,
    whatever follows it.  The two flags are computed independently, each
    from its own pattern, and no exclusion is enforced: both may be false,
    and both are true for suitable patterns supplied by the caller (with
    the default patterns, whose languages are disjoint, they are never
    true together).  The patterns other than the default ones are those
    that [re] compiles to the regular expressions of the embedding. *)
Theorem from_series_classification :
  (∀ row dt sp bp w,
     Well.from_series row dt (Some sp) (Some bp) = Ok w →
     ∃ s, lookup_label row "Sample" = Some (CStr s)
       ∧ Well.sample_id w = CStr s
       ∧ (Well.standard w = true ↔ ∃ p q, chars s = p ++ q ∧ matches sp p)
       ∧ (Well.background w = true ↔ ∃ p q, chars s = p ++ q ∧ matches bp p)
       ∧ (sp = standard_pattern_default →
          (Well.standard w = true ↔ label_digits_prefix "Ss" "tandard" s))
       ∧ (bp = background_pattern_default →
          (Well.background w = true ↔ label_digits_prefix "Bb" "ackground" s))
       ∧ (sp = standard_pattern_default → bp = background_pattern_default →
          ¬ (Well.standard w = true ∧ Well.background w = true)))
  ∧ (∃ w, Well.from_series row_Unknown "fluorescence intensity"
            (Some standard_pattern_default) (Some background_pattern_default) = Ok w
          ∧ Well.standard w = false ∧ Well.background w = false)
  ∧ (∃ w, Well.from_series row_Standard1 "fluorescence intensity"
            (Some standard_pattern_default) (Some standard_pattern_default) = Ok w
          ∧ Well.standard w = true ∧ Well.background w = true).
Proof.
  split; [|split; eexists; (split; [reflexivity|split; reflexivity])].
  intros row dt sp bp w H.
  destruct (from_series_flags row dt sp bp w H) as (s & Hsam & Hid & Hstd & Hbg).
  exists s. rewrite Hstd, Hbg.
  split; [exact Hsam|]. split; [exact Hid|].
  split; [apply has_prefix_match_spec|]. split; [apply has_prefix_match_spec|].
  split; [intros ->; apply has_prefix_match_label_digits|].
  split; [intros ->; apply has_prefix_match_label_digits|].
  intros -> ->. rewrite <- Hstd, <- Hbg.
  exact (from_series_default_exclusive row dt w H).
Qed.

(** The first part of [from_series_classification] on the first row of the
    scenario. *)
Lemma from_series_classification_witness :
  Well.from_series row_Standard1 "fluorescence intensity"
    (Some standard_pattern_default) (Some background_pattern_default)
  = Ok (Well.Build (CStr "A1") (CStr "Standard1")
          [WellStatistic.__init__ "fluorescence intensity" "X" (CNum 10);
           WellStatistic.__init__ "fluorescence intensity" "Y" (CNum 20)]
          true false (Some 1))
  ∧ ∃ s, lookup_label row_Standard1 "Sample" = Some (CStr s)
       ∧ (true = true ↔ label_digits_prefix "Ss" "tandard" s)
       ∧ (false = true ↔ label_digits_prefix "Bb" "ackground" s).
Proof.
  split; [reflexivity|].
  destruct (proj1 from_series_classification row_Standard1 "fluorescence intensity"%string
              standard_pattern_default background_pattern_default _ eq_refl)
    as (s & Hs & _ & _ & _ & Hstd & Hbg & _).
  exists s; split; [exact Hs|].
  split; [exact (Hstd eq_refl) | exact (Hbg eq_refl)].
Defined.

(** ** Plate: the loaders and the provenance fields *)

Lemma Plate_from_dataframe_Ok table rd b m sp bp (p : Plate.t) :
  Plate.from_dataframe table rd b m sp bp = Ok p ↔
  ∃ wells, _plate_from_dataframe table sp bp = Ok wells
           ∧ p = Plate.__init__ wells None rd b m.
Proof.
  unfold Plate.from_dataframe; rewrite bind_Ok.
  split; intros (wells & H & E); exists wells; split; congruence.
Qed.

Lemma Plate_from_csv_Ok (read_csv : string → result DataFrame)
    path rd b m sp bp (p : Plate.t) :
  Plate.from_csv read_csv path rd b m sp bp = Ok p ↔
  ∃ table wells, read_csv path = Ok table
                 ∧ _plate_from_dataframe table sp bp = Ok wells
                 ∧ p = Plate.__init__ wells (Some path) rd b m.
Proof.
  unfold Plate.from_csv; rewrite bind_Ok. split.
  - intros (table & Ht & (wells & H & E)%bind_Ok).
    exists table, wells; repeat split; congruence.
  - intros (table & wells & Ht & H & ->).
    exists table; split; [exact Ht|]. apply bind_Ok; eauto.
Qed.

Lemma Plate_from_excel_Ok {kwargs} (read_excel : string → kwargs → result DataFrame)
    path rd b m sp bp kw (p : Plate.t) :
  Plate.from_excel read_excel path rd b m sp bp kw = Ok p ↔
  ∃ table wells, read_excel path kw = Ok table
                 ∧ _plate_from_dataframe table sp bp = Ok wells
                 ∧ p = Plate.__init__ wells (Some path) rd b m.
Proof.
  unfold Plate.from_excel; rewrite bind_Ok. split.
  - intros (table & Ht & (wells & H & E)%bind_Ok).
    exists table, wells; repeat split; congruence.
  - intros (table & wells & Ht & H & ->).
    exists table; split; [exact Ht|]. apply bind_Ok; eauto.
Qed.

(** C10.  A plate loaded by [from_dataframe] has a null [filepath]; a plate
    loaded by [from_csv] or [from_excel] has the path that the loader was
    given; in the three cases [run_datetime], [batch_id] and [meta] are the
    arguments of the loader. *)
Theorem Plate_loaders_provenance {kwargs : Type}
    (read_csv : string → result DataFrame)
    (read_excel : string → kwargs → result DataFrame)
    (table : DataFrame) (path : string) (rd b : option string)
    (m : option (gmap string cell)) (sp bp : option regex) (kw : kwargs) :
  (∀ p, Plate.from_dataframe table rd b m sp bp = Ok p →
        Plate.filepath p = None
        ∧ Plate.run_datetime p = rd ∧ Plate.batch_id p = b ∧ Plate.meta p = m)
  ∧ (∀ p, Plate.from_csv read_csv path rd b m sp bp = Ok p →
        Plate.filepath p = Some path
        ∧ Plate.run_datetime p = rd ∧ Plate.batch_id p = b ∧ Plate.meta p = m)
  ∧ (∀ p, Plate.from_excel read_excel path rd b m sp bp kw = Ok p →
        Plate.filepath p = Some path
        ∧ Plate.run_datetime p = rd ∧ Plate.batch_id p = b ∧ Plate.meta p = m).
Proof.
  split; [|split]; intros p.
  - intros (wells & _ & ->)%Plate_from_dataframe_Ok; auto.
  - intros (t & wells & _ & _ & ->)%Plate_from_csv_Ok; auto.
  - intros (t & wells & _ & _ & ->)%Plate_from_excel_Ok; auto.
Qed.

(** The three loaders on the table of the scenario, the two readers
    returning that table for any path. *)
Lemma Plate_loaders_provenance_witness :
  let meta := Some ({[ "operator" := CStr "rb" ]} : gmap string cell) in
  let sp := Some standard_pattern_default in
  let bp := Some background_pattern_default in
  ∃ p1 p2 p3,
    (Plate.from_dataframe table_scenario (Some "2021-03-01") (Some "b7") meta sp bp = Ok p1
     ∧ Plate.from_csv (λ _, Ok table_scenario) "plate.csv"
         (Some "2021-03-01") (Some "b7") meta sp bp = Ok p2
     ∧ Plate.from_excel (λ _ (_ : unit), Ok table_scenario) "plate.xlsx"
         (Some "2021-03-01") (Some "b7") meta sp bp () = Ok p3)
    ∧ (Plate.filepath p1 = None ∧ Plate.run_datetime p1 = Some "2021-03-01"
       ∧ Plate.batch_id p1 = Some "b7" ∧ Plate.meta p1 = meta)
    ∧ (Plate.filepath p2 = Some "plate.csv" ∧ Plate.run_datetime p2 = Some "2021-03-01"
       ∧ Plate.batch_id p2 = Some "b7" ∧ Plate.meta p2 = meta)
    ∧ (Plate.filepath p3 = Some "plate.xlsx" ∧ Plate.run_datetime p3 = Some "2021-03-01"
       ∧ Plate.batch_id p3 = Some "b7" ∧ Plate.meta p3 = meta).
Proof.
  intros meta sp bp.
  do 3 eexists.
  split; [split; [reflexivity|split; reflexivity]|].
  split; [|split].
  - refine (proj1 (Plate_loaders_provenance (kwargs := unit)
              (λ _, Ok table_scenario) (λ _ _, Ok table_scenario)
              table_scenario "plate.csv" _ _ _ sp bp ()) _ _).
    reflexivity.
  - refine (proj1 (proj2 (Plate_loaders_provenance (kwargs := unit)
              (λ _, Ok table_scenario) (λ _ _, Ok table_scenario)
              table_scenario "plate.csv" _ _ _ sp bp ())) _ _).
    reflexivity.
  - refine (proj2 (proj2 (Plate_loaders_provenance (kwargs := unit)
              (λ _, Ok table_scenario) (λ _ _, Ok table_scenario)
              table_scenario "plate.xlsx" _ _ _ sp bp ())) _ _).
    reflexivity.
Defined.

(** ** _plate_from_dataframe: wells and statistics *)

Lemma first_digit_run_Some (s : list ascii) :
  Exists (λ c, is_digit c = true) s →
  ∃ d, first_digit_run s = Some d ∧ d ≠ [] ∧ Forall (λ c, is_digit c = true) d.
Proof.
  assert (Htake : ∀ t, Forall (λ c, is_digit c = true) (take_digits t)).
  { induction t as [|c t IH]; simpl; [constructor|].
    destruct (is_digit c) eqn:E; constructor; assumption. }
  induction s as [|c s IH]; intros H; [inversion H|]. simpl.
  destruct (is_digit c) eqn:E.
  - eexists; split; [reflexivity|]. split; [discriminate|].
    constructor; [exact E | apply Htake].
  - apply IH. inversion H; subst; [congruence | assumption].
Qed.

Lemma Well_init_with_digit (loc : string) (sid : cell)
    (data : list WellStatistic.t) (std bg : bool) :
  Exists (λ c, is_digit c = true) (chars loc) →
  ∃ o, Well.__init__ (CStr loc) sid data std bg
       = Ok (Well.Build (CStr loc) sid data std bg o).
Proof.
  intros (d & Hd & _)%first_digit_run_Some.
  exists (location_of_run d). apply Well_init_run; exact Hd.
Qed.

Lemma lookup_label_NoDup (row : Series) (k : string) (v : cell) :
  NoDup (index row) → (k, v) ∈ row → lookup_label row k = Some v.
Proof.
  induction row as [|[k0 v0] row IH]; simpl; intros Hnd Hin; [inversion Hin|].
  apply NoDup_cons in Hnd as [Hk0 Hnd].
  apply elem_of_cons in Hin as [[= -> ->]|Hin].
  - rewrite String.eqb_refl; reflexivity.
  - destruct (String.eqb_spec k0 k) as [->|_]; [|auto].
    exfalso; apply Hk0. unfold index.
    apply list_elem_of_fmap. exists (k, v); auto.
Qed.

Lemma for_each_map {A B C} (f : A → result B) (h : C → A) (g : C → B) (l : list C) :
  Forall (λ x, f (h x) = Ok (g x)) l → for_each f (map h l) = Ok (map g l).
Proof.
  induction 1 as [|x l Hx _ IH]; simpl; [reflexivity|].
  rewrite Hx; simpl. rewrite IH; reflexivity.
Qed.

Lemma variables_of_row (row : Series) :
  List.filter (λ i, bool_decide (i ∉ ["Location"; "Sample"]%string)) (index row)
  = map fst (filter (λ kv, kv.1 ∉ ["Location"; "Sample"]%string) row).
Proof.
  induction row as [|[k v] row IH]; [reflexivity|].
  rewrite filter_cons. unfold index in *. cbn [map List.filter fst].
  destruct (decide (k ∉ ["Location"; "Sample"]%string)) as [H|H].
  - rewrite bool_decide_eq_true_2 by exact H. cbn [map fst]; f_equal; exact IH.
  - rewrite bool_decide_eq_false_2 by exact H. exact IH.
Qed.

Lemma from_series_statistics (row : Series) (dt : string) :
  NoDup (index row) →
  for_each (λ var, v ← Series_getitem row var; Ok (WellStatistic.__init__ dt var v))
    (List.filter (λ i, bool_decide (i ∉ ["Location"; "Sample"]%string)) (index row))
  = Ok (statistics_of_row dt row).
Proof.
  intros Hnd. rewrite variables_of_row. unfold statistics_of_row.
  apply for_each_map, List.Forall_forall. intros [k v] Hin; simpl.
  apply list_elem_of_In, list_elem_of_filter in Hin as [_ Hin].
  unfold Series_getitem. rewrite (lookup_label_NoDup row k v Hnd Hin); reflexivity.
Qed.

Lemma from_series_with_location (row : Series) (dt : string) (sp bp : regex) :
  NoDup (index row) → row_with_location row →
  ∃ w, Well.from_series row dt (Some sp) (Some bp) = Ok w
       ∧ Well.data w = statistics_of_row dt row
       ∧ lookup_label row "Location" = Some (Well.location_str w)
       ∧ lookup_label row "Sample" = Some (Well.sample_id w).
Proof.
  intros Hnd (loc & sam & Hloc & Hsam & Hdig).
  unfold Well.from_series. rewrite from_series_statistics by exact Hnd; simpl.
  unfold Series_getattr. rewrite Hloc, Hsam; simpl.
  edestruct (Well_init_with_digit loc) as [n ->]; [exact Hdig|].
  eexists; split; [reflexivity|]. simpl; auto.
Qed.

Lemma for_each_Forall2 {A B} (f : A → result B) (Q : A → B → Prop) (xs : list A) :
  Forall (λ x, ∃ y, f x = Ok y ∧ Q x y) xs →
  ∃ ys, for_each f xs = Ok ys ∧ Forall2 Q xs ys.
Proof.
  induction 1 as [|x xs (y & Hy & HQ) _ (ys & Hys & HQs)]; simpl.
  - exists []; split; [reflexivity | constructor].
  - exists (y :: ys); rewrite Hy; simpl; rewrite Hys; split; [reflexivity|].
    constructor; assumption.
Qed.

Lemma index_combine (cols : list string) (r : list cell) :
  length r = length cols → index (combine cols r) = cols.
Proof.
  revert r; induction cols as [|c cols IH]; intros [|x r]; simpl;
    try reflexivity; try discriminate.
  intros [= H]; f_equal; auto.
Qed.

Lemma length_statistics_of_row (dt : string) (row : Series) :
  NoDup (index row) →
  ("Location" : string) ∈ index row → ("Sample" : string) ∈ index row →
  (length (statistics_of_row dt row) + 2 = length row)%nat.
Proof.
  unfold statistics_of_row; rewrite length_map.
  assert (Hgen : NoDup (index row) →
    (length (filter (λ kv : string * cell, kv.1 ∉ ["Location"; "Sample"]%string) row)
     + (if decide (("Location" : string) ∈ index row) then 1 else 0)
     + (if decide (("Sample" : string) ∈ index row) then 1 else 0)
     = length row)%nat).
  { induction row as [|[k v] row IH]; intros Hnd; [reflexivity|].
    unfold index in *; cbn [map fst] in *.
    apply NoDup_cons in Hnd as [Hk Hnd]. specialize (IH Hnd).
    rewrite filter_cons; cbn [fst length].
    repeat case_decide; simpl;
      repeat match goal with
             | H : _ ∈ _ :: _ |- _ => apply elem_of_cons in H as [H|H]
             | H : _ ∉ _ :: _ |- _ => apply not_elem_of_cons in H as [? H]
             | H : ¬ _ ∉ _ |- _ => apply dec_stable in H
             end;
      subst; try discriminate; try contradiction; try lia;
      try match goal with H : _ ∈ [] |- _ => inversion H end. }
  intros Hnd HL HS. specialize (Hgen Hnd).
  rewrite !decide_True in Hgen by assumption. lia.
Qed.

Lemma lookup_label_index (row : Series) (k : string) (v : cell) :
  lookup_label row k = Some v → k ∈ index row.
Proof.
  induction row as [|[k0 v0] row IH]; simpl; [discriminate|].
  destruct (String.eqb_spec k0 k) as [->|_]; intros H.
  - left.
  - right; auto.
Qed.

Lemma statistics_of_row_datatype (dt : string) (row : Series) :
  Forall (λ ws, WellStatistic.datatype ws = dt) (statistics_of_row dt row).
Proof.
  unfold statistics_of_row. apply List.Forall_forall.
  intros ws (kv & <- & _)%in_map_iff; reflexivity.
Qed.

(** The law of C6 on the tables whose locations all hold a digit: one well
    per row, in row order, and in each well one statistic per column other
    than the location and the sample, in column order, tagged
    ["fluorescence intensity"]. *)
Theorem plate_from_dataframe_wells (table : DataFrame) (sp bp : regex) :
  well_formed table →
  Forall row_with_location (iterrows table) →
  ∃ wells,
    _plate_from_dataframe table (Some sp) (Some bp) = Ok wells
    ∧ length wells = length (rows table)
    ∧ Forall2
        (λ row w,
           lookup_label row "Location" = Some (Well.location_str w)
           ∧ lookup_label row "Sample" = Some (Well.sample_id w)
           ∧ Well.data w = statistics_of_row "fluorescence intensity" row
           ∧ (length (Well.data w) + 2 = length (columns table))%nat
           ∧ Forall (λ ws, WellStatistic.datatype ws = "fluorescence intensity"%string)
               (Well.data w))
        (iterrows table) wells.
Proof.
  intros [Hnd Hlen] Hloc. unfold rectangular in Hlen. unfold _plate_from_dataframe.
  edestruct (for_each_Forall2
               (λ row, Well.from_series row "fluorescence intensity" (Some sp) (Some bp)))
    as (wells & Hw & HQ); [|exists wells; split; [exact Hw|split; [|exact HQ]]].
  - unfold iterrows in *. rewrite List.Forall_forall in *.
    intros row Hin. pose proof (Hloc row Hin) as Hrow.
    apply in_map_iff in Hin as (r & <- & Hr).
    assert (Hidx : index (combine (columns table) r) = columns table)
      by (apply index_combine, Hlen, Hr).
    destruct (from_series_with_location (combine (columns table) r)
                "fluorescence intensity" sp bp) as (w & Hw & Hdata & HL & HS);
      [rewrite Hidx; exact Hnd | exact Hrow |].
    exists w; split; [exact Hw|]. rewrite Hdata.
    split; [exact HL|]. split; [exact HS|]. split; [reflexivity|].
    split; [|apply statistics_of_row_datatype].
    rewrite length_statistics_of_row.
    + rewrite <- Hidx at 2. unfold index; rewrite length_map; reflexivity.
    + rewrite Hidx; exact Hnd.
    + eapply lookup_label_index; exact HL.
    + eapply lookup_label_index; exact HS.
  - apply for_each_Ok_length in Hw. rewrite Hw.
    unfold iterrows; apply length_map.
Qed.

(** Witness of [plate_from_dataframe_wells]: the table of the scenario. *)
Lemma plate_from_dataframe_wells_witness :
  ∃ wells,
    _plate_from_dataframe table_scenario
      (Some standard_pattern_default) (Some background_pattern_default) = Ok wells
    ∧ length wells = 2%nat
    ∧ Forall (λ w, length (Well.data w) = 2%nat) wells.
Proof.
  destruct (plate_from_dataframe_wells table_scenario
              standard_pattern_default background_pattern_default)
    as (wells & Hw & Hlen & Hall).
  - split; [apply (bool_decide_unpack _); vm_compute; exact I | repeat constructor].
  - repeat constructor.
    + exists "A1"%string, "Standard1"%string.
      split; [reflexivity|]. split; [reflexivity|]. right; left; reflexivity.
    + exists "B2"%string, "Unknown"%string.
      split; [reflexivity|]. split; [reflexivity|]. right; left; reflexivity.
  - exists wells; split; [exact Hw|]. split; [exact Hlen|].
    apply Forall2_Forall_r with (1 := Hall).
    apply Forall_forall; intros row _ w (_ & _ & _ & Hn & _).
    simpl in Hn; lia.
Defined.

Example plate_from_dataframe_scenario :
  _plate_from_dataframe table_scenario
    (Some standard_pattern_default) (Some background_pattern_default)
  = Ok [Well.Build (CStr "A1") (CStr "Standard1")
          [WellStatistic.__init__ "fluorescence intensity" "X" (CNum 10);
           WellStatistic.__init__ "fluorescence intensity" "Y" (CNum 20)]
          true false (Some 1);
        Well.Build (CStr "B2") (CStr "Unknown")
          [WellStatistic.__init__ "fluorescence intensity" "X" (CNum 5);
           WellStatistic.__init__ "fluorescence intensity" "Y" (CNum 15)]
          false false (Some 2)].
Proof. reflexivity. Qed.

(** C6.  A table with the columns ["Location"] and ["Sample"] and one row,
    whose location has no digit: the specification promises a plate of one
    well, the code raises the [AttributeError] of the constructor of [Well]
    and builds no plate. *)
Theorem plate_from_dataframe_NoDigits_raises :
  _plate_from_dataframe table_NoDigits
    (Some standard_pattern_default) (Some background_pattern_default)
  = Raise (AttributeError "'NoneType' object has no attribute 'group'")
  ∧ Plate.from_dataframe table_NoDigits None None None
      (Some standard_pattern_default) (Some background_pattern_default)
    = Raise (AttributeError "'NoneType' object has no attribute 'group'").
Proof. split; reflexivity. Qed.

(** ** _ref_from_dataframe *)

Lemma dict_of_items_acc_lookup (kvs : list (string * cell)) (acc : gmap string cell)
    (k : string) :
  fold_left dict_setitem kvs acc !! k
  = match fold_left dict_setitem kvs ∅ !! k with
    | Some v => Some v
    | None => acc !! k
    end.
Proof.
  revert acc; induction kvs as [|[k0 v0] kvs IH]; intros acc; simpl.
  - rewrite lookup_empty; reflexivity.
  - rewrite IH, (IH (dict_setitem ∅ (k0, v0))).
    destruct (fold_left _ kvs ∅ !! k); [reflexivity|].
    unfold dict_setitem; simpl.
    destruct (decide (k0 = k)) as [->|Hne].
    + rewrite !lookup_insert_eq; reflexivity.
    + rewrite !lookup_insert_ne, lookup_empty by exact Hne; reflexivity.
Qed.

Lemma dict_of_items_cons (k0 : string) (v0 : cell) (kvs : list (string * cell))
    (k : string) :
  dict_of_items ((k0, v0) :: kvs) !! k
  = match dict_of_items kvs !! k with
    | Some v => Some v
    | None => if decide (k0 = k) then Some v0 else None
    end.
Proof.
  unfold dict_of_items; simpl. rewrite dict_of_items_acc_lookup.
  destruct (fold_left _ kvs ∅ !! k); [reflexivity|].
  unfold dict_setitem; simpl.
  destruct (decide (k0 = k)) as [->|Hne].
  - apply lookup_insert_eq.
  - rewrite lookup_insert_ne by exact Hne; apply lookup_empty.
Qed.

Lemma dict_of_items_None (kvs : list (string * cell)) (k : string) :
  dict_of_items kvs !! k = None ↔ k ∉ index kvs.
Proof.
  induction kvs as [|[k0 v0] kvs IH].
  - split; [intros _ H; inversion H | intros _; apply lookup_empty].
  - rewrite dict_of_items_cons. unfold index in *; cbn [map fst].
    rewrite not_elem_of_cons, <- IH.
    destruct (dict_of_items kvs !! k); [split; [discriminate | intros [_ [=]]]|].
    destruct (decide (k0 = k)) as [->|Hne];
      [split; [discriminate | intros [[] _]; reflexivity] | split; auto].
Qed.

Lemma dict_of_items_NoDup (kvs : list (string * cell)) (k : string) :
  NoDup (index kvs) → dict_of_items kvs !! k = lookup_label kvs k.
Proof.
  induction kvs as [|[k0 v0] kvs IH]; intros Hnd.
  - apply lookup_empty.
  - unfold index in *; cbn [map fst] in Hnd.
    apply NoDup_cons in Hnd as [Hk0 Hnd].
    rewrite dict_of_items_cons; simpl.
    destruct (String.eqb_spec k0 k) as [->|Hne].
    + rewrite decide_True by reflexivity.
      apply dict_of_items_None in Hk0 as ->; reflexivity.
    + rewrite decide_False by exact Hne. rewrite IH by exact Hnd.
      destruct (lookup_label kvs k); reflexivity.
Qed.

Lemma ref_comprehension_frame (recs : list (gmap string cell))
    (acc m : gmap cell (gmap string cell)) (a : cell) :
  ref_comprehension acc recs = Ok m →
  Forall (λ y, y !! ("analyte" : string) ≠ Some a) recs →
  m !! a = acc !! a.
Proof.
  revert acc; induction recs as [|x recs IH]; intros acc; simpl.
  - intros [= <-] _; reflexivity.
  - intros (a' & Ha' & H)%bind_Ok Hall.
    apply Forall_cons in Hall as [Hx Hall].
    rewrite (IH _ H Hall). apply lookup_insert_ne.
    intros ->. apply Hx. unfold dict_getitem in Ha'.
    destruct (x !! "analyte"%string); [congruence | discriminate].
Qed.

Lemma ref_comprehension_last (pre post : list (gmap string cell))
    (x : gmap string cell) (acc m : gmap cell (gmap string cell)) (a : cell) :
  ref_comprehension acc (pre ++ x :: post) = Ok m →
  x !! ("analyte" : string) = Some a →
  Forall (λ y, y !! ("analyte" : string) ≠ Some a) post →
  m !! a = Some (filter (λ kv, kv.1 ≠ "analyte"%string) x).
Proof.
  revert acc; induction pre as [|x0 pre IH]; intros acc; simpl.
  - unfold dict_getitem. intros H Hx Hpost. rewrite Hx in H; simpl in H.
    rewrite (ref_comprehension_frame _ _ _ _ H Hpost). apply lookup_insert_eq.
  - intros (a' & _ & H)%bind_Ok Hx Hpost. exact (IH _ H Hx Hpost).
Qed.

Lemma ref_comprehension_total (recs : list (gmap string cell))
    (acc : gmap cell (gmap string cell)) :
  Forall (λ x, is_Some (x !! ("analyte" : string))) recs →
  ∃ m, ref_comprehension acc recs = Ok m.
Proof.
  intros H; revert acc; induction H as [|x recs [a Ha] _ IH]; intros acc; simpl.
  - eauto.
  - unfold dict_getitem; rewrite Ha; simpl. apply IH.
Qed.

Lemma records_have_analyte (table : DataFrame) :
  ("analyte" : string) ∈ columns table →
  Forall (λ r, length r = length (columns table)) (rows table) →
  Forall (λ x, is_Some (x !! ("analyte" : string))) (to_dict_records table).
Proof.
  intros Hin Hlen. unfold to_dict_records, iterrows.
  rewrite List.Forall_forall in *. intros x (row & <- & (r & <- & Hr)%in_map_iff)%in_map_iff.
  destruct (dict_of_items (combine (columns table) r) !! "analyte"%string) eqn:E; [eauto|].
  apply dict_of_items_None in E. rewrite index_combine in E by (apply Hlen, Hr).
  contradiction.
Qed.

Lemma Reference_init_items (d : pydict) :
  items (Reference.data (Reference.__init__ (Some d))) = items d.
Proof.
  unfold Reference.__init__. case_bool_decide as E; simpl; [rewrite E|]; reflexivity.
Qed.

Lemma Reference_from_dataframe_Ok (table : DataFrame) (m : gmap cell (gmap string cell)) :
  ref_comprehension ∅ (to_dict_records table) = Ok m →
  ∃ ref, Reference.from_dataframe table = Ok ref ∧ items (Reference.data ref) = m.
Proof.
  intros H. unfold Reference.from_dataframe, _ref_from_dataframe. rewrite H.
  eexists; split; [reflexivity|].
  exact (Reference_init_items {| kind := PlainDict; items := m |}).
Qed.

Lemma index_combine_subseteq (cols : list string) (r : list cell) (k : string) :
  k ∈ index (combine cols r) → k ∈ cols.
Proof.
  revert r; induction cols as [|c cols IH]; intros [|x r]; simpl;
    try (intros H; inversion H; fail).
  intros [->|H]%elem_of_cons; [left | right; eauto].
Qed.

Lemma Reference_from_dataframe_entry (table : DataFrame)
    (before after : list (list cell)) (r : list cell) (a : cell) :
  Forall (λ r, length r = length (columns table)) (rows table) →
  ("analyte" : string) ∈ columns table →
  rows table = before ++ r :: after →
  row_analyte table r = Some a →
  Forall (λ r', row_analyte table r' ≠ Some a) after →
  ∃ ref, Reference.from_dataframe table = Ok ref
    ∧ items (Reference.data ref) !! a = Some (row_entry table r).
Proof.
  intros Hlen Hcol Hrows Ha Hafter.
  destruct (ref_comprehension_total (to_dict_records table) ∅) as [m Hm];
    [apply records_have_analyte; assumption|].
  destruct (Reference_from_dataframe_Ok table m Hm) as (ref & Href & Hitems).
  exists ref; split; [exact Href|]. rewrite Hitems.
  unfold to_dict_records, iterrows in Hm. rewrite Hrows in Hm.
  rewrite !map_app in Hm; simpl in Hm.
  eapply ref_comprehension_last; [exact Hm | exact Ha |].
  rewrite !Forall_map. exact Hafter.
Qed.

Lemma row_entry_lookup (table : DataFrame) (r : list cell) (k : string) :
  NoDup (columns table) → length r = length (columns table) →
  row_entry table r !! k
  = if decide (k = "analyte"%string) then None
    else lookup_label (combine (columns table) r) k.
Proof.
  intros Hnd Hr. unfold row_entry.
  rewrite <- dict_of_items_NoDup by (rewrite index_combine; assumption).
  destruct (decide (k = "analyte"%string)) as [->|Hne].
  - apply map_lookup_filter_None; right. intros v _ H; apply H; reflexivity.
  - destruct (dict_of_items (combine (columns table) r) !! k) as [v|] eqn:E.
    + apply map_lookup_filter_Some; split; [exact E | exact Hne].
    + apply map_lookup_filter_None; left; exact E.
Qed.

Lemma row_analyte_column (table : DataFrame) (r : list cell) (a : cell) :
  row_analyte table r = Some a → ("analyte" : string) ∈ columns table.
Proof.
  unfold row_analyte; intros H.
  apply (index_combine_subseteq _ r). apply dec_stable; intros Hn.
  apply dict_of_items_None in Hn. congruence.
Qed.

(** C9.  Whatever the rows before it and whether or not they name the same
    analyte, when a row names an analyte and no later row does, loading
    succeeds and the entry of the analyte is the entry of that row: with
    distinct labels, its cells under the labels other than ["analyte"]. *)
Theorem Reference_from_dataframe_last_row_wins (table : DataFrame)
    (before after : list (list cell)) (r : list cell) (a : cell) :
  rectangular table →
  rows table = before ++ r :: after →
  row_analyte table r = Some a →
  Forall (λ r', row_analyte table r' ≠ Some a) after →
  ∃ ref, Reference.from_dataframe table = Ok ref
    ∧ items (Reference.data ref) !! a = Some (row_entry table r)
    ∧ (NoDup (columns table) →
       ∀ k, row_entry table r !! k
            = if decide (k = "analyte"%string) then None
              else lookup_label (combine (columns table) r) k).
Proof.
  intros Hlen Hrows Ha Hafter.
  destruct (Reference_from_dataframe_entry table before after r a)
    as (ref & Href & Hentry); try assumption.
  { eapply row_analyte_column; exact Ha. }
  exists ref; split; [exact Href|]. split; [exact Hentry|].
  intros Hnd k. apply row_entry_lookup; [exact Hnd|].
  unfold rectangular in Hlen. rewrite List.Forall_forall in Hlen; apply Hlen.
  rewrite Hrows; apply in_or_app; right; left; reflexivity.
Qed.

(** [Reference_from_dataframe_last_row_wins] on a table whose first two
    rows name the analyte ["A"]: the entry of ["A"] is that of the second. *)
Lemma Reference_from_dataframe_last_row_wins_witness :
  (rectangular table_reference
   ∧ rows table_reference
     = [[CStr "A"; CNum 1; CNum 2]] ++ [CStr "A"; CNum 5; CNum 6] :: [[CStr "B"; CNum 3; CNum 4]]
   ∧ row_analyte table_reference [CStr "A"; CNum 1; CNum 2] = Some (CStr "A")
   ∧ row_analyte table_reference [CStr "A"; CNum 5; CNum 6] = Some (CStr "A")
   ∧ Forall (λ r', row_analyte table_reference r' ≠ Some (CStr "A"))
       [[CStr "B"; CNum 3; CNum 4]])
  ∧ ∃ ref, Reference.from_dataframe table_reference = Ok ref
      ∧ items (Reference.data ref) !! CStr "A"
        = Some (row_entry table_reference [CStr "A"; CNum 5; CNum 6])
      ∧ row_entry table_reference [CStr "A"; CNum 5; CNum 6] !! ("S1" : string)
        = Some (CNum 5).
Proof.
  assert (Hrect : rectangular table_reference) by repeat constructor.
  assert (Hafter : Forall (λ r', row_analyte table_reference r' ≠ Some (CStr "A"))
                     [[CStr "B"; CNum 3; CNum 4]]).
  { constructor; [|constructor]. intros H; vm_compute in H; discriminate. }
  split.
  { split; [exact Hrect|]. split; [reflexivity|].
    split; [vm_compute; reflexivity|]. split; [vm_compute; reflexivity | exact Hafter]. }
  destruct (Reference_from_dataframe_last_row_wins table_reference
              [[CStr "A"; CNum 1; CNum 2]] [[CStr "B"; CNum 3; CNum 4]]
              [CStr "A"; CNum 5; CNum 6] (CStr "A") Hrect eq_refl)
    as (ref & Href & Hentry & Hcells); [vm_compute; reflexivity | exact Hafter |].
  exists ref; split; [exact Href|]. split; [exact Hentry|].
  rewrite Hcells; [reflexivity|].
  apply (bool_decide_unpack _); vm_compute; exact I.
Defined.

(** The first part of C8 on the tables that have a row: without the column
    ["analyte"], loading raises the error of the module. *)
Theorem Reference_from_dataframe_missing_column (table : DataFrame) :
  ("analyte" : string) ∉ columns table → rows table ≠ [] →
  Reference.from_dataframe table = Raise SchemaError.
Proof.
  intros Hcol Hrows. unfold Reference.from_dataframe, _ref_from_dataframe.
  unfold to_dict_records, iterrows.
  destruct (rows table) as [|r rs]; [contradiction|]. simpl.
  unfold dict_getitem.
  replace (dict_of_items (combine (columns table) r) !! "analyte"%string)
    with (@None cell); [reflexivity|].
  symmetry; apply dict_of_items_None. intros H; apply Hcol.
  eapply index_combine_subseteq; exact H.
Qed.

(** The second part of C8: with the column, loading succeeds, the analyte
    of every row is a key of the result, and its entry is that of a row
    with this analyte. *)
Theorem Reference_from_dataframe_with_column (table : DataFrame) :
  well_formed table → ("analyte" : string) ∈ columns table →
  ∃ ref, Reference.from_dataframe table = Ok ref
    ∧ ∀ r, r ∈ rows table →
        ∃ a r', row_analyte table r = Some a
                ∧ r' ∈ rows table ∧ row_analyte table r' = Some a
                ∧ items (Reference.data ref) !! a = Some (row_entry table r').
Proof.
  intros Hwf Hcol.
  destruct (ref_comprehension_total (to_dict_records table) ∅) as [m Hm];
    [apply records_have_analyte; [exact Hcol | apply Hwf]|].
  destruct (Reference_from_dataframe_Ok table m Hm) as (ref & Href & Hitems).
  exists ref; split; [exact Href|]. intros r Hr.
  pose proof (records_have_analyte table Hcol (proj2 Hwf)) as Hall.
  assert (Ha : ∃ a, row_analyte table r = Some a).
  { rewrite List.Forall_forall in Hall. apply (Hall (dict_of_items (combine (columns table) r))).
    unfold to_dict_records, iterrows. rewrite map_map.
    apply in_map_iff; exists r; split; [reflexivity | apply list_elem_of_In; exact Hr]. }
  destruct Ha as [a Ha]. exists a.
  (* the last row that names [a] *)
  assert (Hlast : ∀ l, (∃ r0, r0 ∈ l ∧ row_analyte table r0 = Some a) →
            ∃ pre r' post, l = pre ++ r' :: post ∧ row_analyte table r' = Some a
                           ∧ Forall (λ r0, row_analyte table r0 ≠ Some a) post).
  { induction l as [|x l IH]; intros (r0 & Hin & Hr0); [inversion Hin|].
    destruct (decide (Exists (λ r1, row_analyte table r1 = Some a) l)) as [Hex|Hno].
    - apply Exists_exists in Hex as (r1 & Hr1 & Ha1).
      destruct IH as (pre & r' & post & -> & Ha' & Hpost); [eauto|].
      exists (x :: pre), r', post; auto.
    - apply elem_of_cons in Hin as [->|Hin].
      + exists [], x, l; split; [reflexivity|]. split; [exact Hr0|].
        apply Forall_forall; intros r1 Hr1 Ha1; apply Hno, Exists_exists; eauto.
      + exfalso; apply Hno, Exists_exists; eauto. }
  destruct (Hlast (rows table)) as (pre & r' & post & Hrows & Ha' & Hpost); [eauto|].
  exists r'; split; [exact Ha|]. split; [rewrite Hrows; set_solver|].
  split; [exact Ha'|].
  destruct (Reference_from_dataframe_entry table pre post r' a)
    as (ref' & Href' & Hentry); try assumption; [apply Hwf|].
  rewrite Href in Href'; injection Href' as <-. exact Hentry.
Qed.

Example Reference_from_dataframe_no_analyte_row :
  Reference.from_dataframe table_no_analyte = Raise SchemaError.
Proof. reflexivity. Qed.

(** C8.  A table without the column ["analyte"] and without rows: the
    specification promises the error of a missing column, the code finds no
    row to look the column up in and returns an empty [Reference]. *)
Theorem Reference_from_dataframe_empty_table_accepted :
  (("analyte" : string) ∉ columns table_no_analyte_empty)
  ∧ Reference.from_dataframe table_no_analyte_empty = Ok (Reference.__init__ None).
Proof.
  split; [|reflexivity].
  intros H; repeat (apply elem_of_cons in H as [H|H]; [discriminate|]); inversion H.
Qed.

(** ** Reference.get, Reference.put and Reference.dataframe *)

Lemma Reference_get_neither (self : Reference.t) :
  Reference.get self None None = (self, Raise InvalidArgument_get).
Proof. destruct self as [d]; reflexivity. Qed.

(** A key that a plain [dict] does not have: [get] raises the error of the
    module, with the analyte alone and with both arguments. *)
Lemma Reference_get_plain_missing_analyte (self : Reference.t) (a : string)
    (standard : option string) :
  kind (Reference.data self) = PlainDict →
  items (Reference.data self) !! CStr a = None →
  Reference.get self (Some a) standard = (self, Raise NotFound).
Proof.
  destruct self as [[k m]]; simpl; intros -> Hm.
  unfold Reference.get, Reference.get_body, pydict_getitem; simpl.
  destruct standard; rewrite Hm; reflexivity.
Qed.

(** A standard that the entry of the analyte does not have, whatever the
    kind of the dictionary. *)
Lemma Reference_get_missing_standard (self : Reference.t) (a s : string)
    (inner : gmap string cell) :
  items (Reference.data self) !! CStr a = Some inner → inner !! s = None →
  Reference.get self (Some a) (Some s) = (self, Raise NotFound).
Proof.
  destruct self as [[k m]]; simpl; intros Hm Hs.
  unfold Reference.get, Reference.get_body, pydict_getitem; simpl.
  rewrite Hm; simpl. unfold dict_getitem; rewrite Hs; reflexivity.
Qed.

(** With the standard alone, an analyte without that standard fails the
    whole call. *)
Lemma Reference_get_standard_missing_somewhere (self : Reference.t) (s : string)
    (a : cell) (inner : gmap string cell) :
  items (Reference.data self) !! a = Some inner → inner !! s = None →
  Reference.get self None (Some s) = (self, Raise NotFound).
Proof.
  destruct self as [[k m]]; simpl; intros Hm Hs.
  unfold Reference.get, Reference.get_body; simpl.
  rewrite (for_each_Raise _ _ (a, inner) (KeyError (CStr s))); [reflexivity| | |].
  - apply elem_of_map_to_list; exact Hm.
  - intros [a' inner'] _; simpl. unfold dict_getitem.
    destruct (inner' !! s); [right; eexists; reflexivity | left; reflexivity].
  - simpl; unfold dict_getitem; rewrite Hs; reflexivity.
Qed.

(** With both arguments, a missing analyte is reported as the error of the
    module by a [defaultdict] as well, after the analyte has been stored. *)
Lemma Reference_get_default_missing_both (self : Reference.t) (a s : string) :
  kind (Reference.data self) = DefaultDict →
  items (Reference.data self) !! CStr a = None →
  Reference.get self (Some a) (Some s)
  = (Reference.Build {| kind := DefaultDict;
                        items := <[CStr a := ∅]> (items (Reference.data self)) |},
     Raise NotFound).
Proof.
  destruct self as [[k m]]; simpl; intros -> Hm.
  unfold Reference.get, Reference.get_body, pydict_getitem; simpl.
  rewrite Hm; simpl. unfold dict_getitem; rewrite lookup_empty; reflexivity.
Qed.

(** C2.  A [Reference] built without data and a call of [get] with an
    analyte that it does not hold: the specification promises the error of
    the module, the code returns an empty series and stores the analyte. *)
Theorem Reference_get_default_missing_analyte :
  items (Reference.data (Reference.__init__ None)) !! CStr "A" = None
  ∧ Reference.get (Reference.__init__ None) (Some "A") None
    = (Reference.Build {| kind := DefaultDict; items := {[ CStr "A" := ∅ ]} |},
       Ok (StandardSeries ∅)).
Proof. split; reflexivity. Qed.

(** The frame of [get]: the stored data are as before whenever the
    dictionary is a plain one, no analyte is asked for, or the analyte is
    held.  [dataframe] never changes them. *)
Theorem Reference_get_frame (self : Reference.t) (analyte standard : option string) :
  kind (Reference.data self) = PlainDict
  ∨ analyte = None
  ∨ (∃ a, analyte = Some a ∧ is_Some (items (Reference.data self) !! CStr a)) →
  (Reference.get self analyte standard).1 = self.
Proof.
  destruct self as [[k m]]; simpl.
  unfold Reference.get, Reference.get_body, pydict_getitem; simpl.
  intros [->|[->|(a & -> & [inner Ha])]].
  - destruct analyte as [a|], standard as [s|]; simpl;
      try destruct (m !! CStr a); reflexivity.
  - destruct standard; reflexivity.
  - rewrite Ha; destruct standard; reflexivity.
Qed.

Theorem Reference_dataframe_frame (self : Reference.t) :
  (Reference.dataframe self).1 = self
  ∧ (Reference.dataframe self).2 = items (Reference.data self).
Proof. split; reflexivity. Qed.

(** C3.  A [Reference] built without data and a call of [get] with an
    analyte that it does not hold: the call fails, and the stored mapping,
    which had no entry for the analyte, has an empty one afterwards. *)
Theorem Reference_get_default_mutates :
  items (Reference.data (Reference.__init__ None)) !! CStr "A" = None
  ∧ (Reference.get (Reference.__init__ None) (Some "A") (Some "S1")).2 = Raise NotFound
  ∧ items (Reference.data
             (Reference.get (Reference.__init__ None) (Some "A") (Some "S1")).1)
      !! CStr "A" = Some ∅
  ∧ (Reference.get (Reference.__init__ None) (Some "A") (Some "S1")).1
    ≠ Reference.__init__ None.
Proof.
  split; [reflexivity|]. split; [reflexivity|]. split; [reflexivity|].
  intros H. apply (f_equal (λ r, items (Reference.data r) !! CStr "A")) in H.
  vm_compute in H. discriminate.
Qed.

(** [put] on a [defaultdict], or on an analyte that is held, succeeds and
    keeps the kind of the dictionary, and [get] then reads the value back
    and leaves the reference as [put] left it. *)
Theorem Reference_put_get (self : Reference.t) (a s : string) (v : cell) :
  kind (Reference.data self) = DefaultDict
  ∨ is_Some (items (Reference.data self) !! CStr a) →
  ∃ self',
    Reference.put self a s v = (self', Ok ())
    ∧ Reference.get self' (Some a) (Some s) = (self', Ok (Scalar v))
    ∧ kind (Reference.data self') = kind (Reference.data self).
Proof.
  destruct self as [[k m]]; simpl; intros H.
  unfold Reference.put, pydict_getitem; simpl.
  destruct (m !! CStr a) as [inner|] eqn:Hm.
  - eexists; split; [reflexivity|]. split; [|reflexivity].
    unfold Reference.get, Reference.get_body, pydict_getitem; simpl.
    rewrite lookup_insert_eq; simpl.
    unfold dict_getitem; rewrite lookup_insert_eq; reflexivity.
  - destruct H as [->|[? [=]]]. simpl.
    eexists; split; [reflexivity|]. split; [|reflexivity].
    unfold Reference.get, Reference.get_body, pydict_getitem; simpl.
    rewrite lookup_insert_eq; simpl.
    unfold dict_getitem; rewrite lookup_insert_eq; reflexivity.
Qed.

(** [put] of an analyte that a plain [dict] does not hold raises the key
    error of the dictionary and stores nothing. *)
Lemma Reference_put_plain_missing (self : Reference.t) (a s : string) (v : cell) :
  kind (Reference.data self) = PlainDict →
  items (Reference.data self) !! CStr a = None →
  Reference.put self a s v = (self, Raise (KeyError (CStr a))).
Proof.
  destruct self as [[k m]]; simpl; intros -> Hm.
  unfold Reference.put, pydict_getitem; simpl. rewrite Hm; reflexivity.
Qed.

(** C4.  A [Reference] loaded from a table and [put] with an analyte that
    the table does not name: the specification promises that the entry is
    created and that [get] then returns the value, the code raises the key
    error of the dictionary, stores nothing, and [get] fails. *)
Theorem Reference_put_new_analyte_after_load :
  ∃ ref,
    Reference.from_dataframe table_reference = Ok ref
    ∧ items (Reference.data ref) !! CStr "C" = None
    ∧ Reference.put ref "C" "S1" (CNum 7) = (ref, Raise (KeyError (CStr "C")))
    ∧ Reference.get (Reference.put ref "C" "S1" (CNum 7)).1 (Some "C") (Some "S1")
      = (ref, Raise NotFound).
Proof.
  eexists; split; [reflexivity|].
  split; [vm_compute; reflexivity|].
  split; [vm_compute; reflexivity|]. vm_compute; reflexivity.
Qed.

(** * Further properties of the code *)

(** ** WellStatistic.as_dict *)

(** [as_dict] holds the three fields under the keys ["datatype"],
    ["variable"] and ["value"] and nothing else, so that two statistics
    with the same dictionary are the same statistic. *)
Theorem WellStatistic_as_dict_faithful (a b : WellStatistic.t) :
  (WellStatistic.as_dict a !! ("datatype" : string) = Some (CStr (WellStatistic.datatype a))
   ∧ WellStatistic.as_dict a !! ("variable" : string) = Some (CStr (WellStatistic.variable a))
   ∧ WellStatistic.as_dict a !! ("value" : string) = Some (WellStatistic.value a)
   ∧ dom (WellStatistic.as_dict a) = ({[ "datatype"; "variable"; "value" ]} : gset string))
  ∧ (WellStatistic.as_dict a = WellStatistic.as_dict b ↔ a = b).
Proof.
  assert (Hget : ∀ x : WellStatistic.t,
            WellStatistic.as_dict x !! ("datatype" : string)
              = Some (CStr (WellStatistic.datatype x))
            ∧ WellStatistic.as_dict x !! ("variable" : string)
              = Some (CStr (WellStatistic.variable x))
            ∧ WellStatistic.as_dict x !! ("value" : string) = Some (WellStatistic.value x)).
  { intros x; unfold WellStatistic.as_dict. split; [|split].
    - rewrite !lookup_insert_ne by discriminate. apply lookup_insert_eq.
    - rewrite lookup_insert_ne by discriminate. apply lookup_insert_eq.
    - apply lookup_insert_eq. }
  split; [split; [apply Hget|split; [apply Hget|split; [apply Hget|]]]|].
  - unfold WellStatistic.as_dict. rewrite !dom_insert_L, dom_empty_L. set_solver.
  - split; [|intros ->; reflexivity]. intros E.
    destruct (Hget a) as (Ha1 & Ha2 & Ha3), (Hget b) as (Hb1 & Hb2 & Hb3).
    rewrite E in Ha1, Ha2, Ha3.
    destruct a as [d1 v1 x1], b as [d2 v2 x2]; simpl in *. congruence.
Qed.

(** ** WellStatisticList.search: composition *)

Lemma List_filter_filter {A} (p q : A → bool) (l : list A) :
  List.filter q (List.filter p l) = List.filter (λ x, p x && q x) l.
Proof.
  induction l as [|x l IH]; simpl; [reflexivity|].
  destruct (p x); simpl; [|exact IH].
  destruct (q x); [rewrite IH|exact IH]; reflexivity.
Qed.

(** Filtering by datatype and variable at once is filtering by the one and
    then, in the result, by the other, in either order. *)
Theorem search_both_is_search_twice (self : list WellStatistic.t) (dt var : string) :
  WellStatisticList.search self (Some dt) (Some var)
  = (found ← WellStatisticList.search self (Some dt) None;
     WellStatisticList.search found None (Some var))
  ∧ WellStatisticList.search self (Some dt) (Some var)
    = (found ← WellStatisticList.search self None (Some var);
       WellStatisticList.search found (Some dt) None).
Proof.
  split; simpl; f_equal; rewrite List_filter_filter; [reflexivity|].
  apply filter_ext; intros ws; apply andb_comm.
Qed.

(** [search] on a concatenation is the concatenation of the two searches,
    and fails when they do. *)
Theorem search_app (l1 l2 : list WellStatistic.t) (dt var : option string) :
  WellStatisticList.search (l1 ++ l2) dt var
  = (found1 ← WellStatisticList.search l1 dt var;
     found2 ← WellStatisticList.search l2 dt var;
     Ok (found1 ++ found2)).
Proof.
  destruct dt, var; simpl; try reflexivity; f_equal; apply List.filter_app.
Qed.

(** ** Well.__init__: when it succeeds and what it stores *)

Lemma int_of_digits_acc_nonneg (d : list ascii) (acc : Z) :
  Forall (λ c, is_digit c = true) d → 0 ≤ acc →
  0 ≤ fold_left (λ acc c, 10 * acc + digit_value c) d acc.
Proof.
  intros Hd; revert acc; induction Hd as [|c d Hc _ IH]; intros acc Hacc; simpl.
  - exact Hacc.
  - apply IH. pose proof (digit_value_range c Hc). lia.
Qed.

Lemma Well_init_Ok_inv (loc sid : cell) (data : list WellStatistic.t)
    (std bg : bool) (w : Well.t) :
  Well.__init__ loc sid data std bg = Ok w →
  ∃ s d, loc = CStr s ∧ first_digit_run (chars s) = Some d
         ∧ w = Well.Build loc sid data std bg (location_of_run d).
Proof.
  destruct loc as [s|n]; [|discriminate].
  destruct (first_digit_run (chars s)) as [d|] eqn:Hd.
  - rewrite (Well_init_run s d sid data std bg Hd). intros [= <-]. eauto.
  - unfold Well.__init__; simpl. rewrite Hd. discriminate.
Qed.

(** Witness of [Well_init_location_first_run]: in ["A007B12"] the first run
    of digits is ["007"]. *)
Lemma Well_init_location_first_run_witness :
  (ascii_only "A007B12"
   ∧ chars "A007B12" = chars "A" ++ chars "007" ++ chars "B12"
   ∧ (length (chars "007") ≤ int_max_str_digits)%nat)
  ∧ Well.__init__ (CStr "A007B12") (CStr "Unknown") [] false false
    = Ok (Well.Build (CStr "A007B12") (CStr "Unknown") [] false false (Some 7)).
Proof.
  assert (Hascii : ascii_only "A007B12") by (apply ascii_only_check; reflexivity).
  assert (Hlen : (length (chars "007") ≤ int_max_str_digits)%nat)
    by (apply Nat.leb_le; reflexivity).
  split; [split; [exact Hascii | split; [reflexivity | exact Hlen]]|].
  refine (Well_init_location_first_run "A007B12" (chars "A") (chars "007") (chars "B12")
            (CStr "Unknown") [] false false Hascii eq_refl _ _ _ _ Hlen).
  - repeat constructor.
  - discriminate.
  - repeat constructor.
  - intros c post' [= <- _]; reflexivity.
Defined.

(** For a location that is a number or a string of ASCII characters, the
    constructor returns a well exactly when the location is a string that
    holds a digit. *)
Theorem Well_init_succeeds_iff (loc sid : cell) (data : list WellStatistic.t)
    (std bg : bool) :
  ascii_cell loc →
  is_Ok (Well.__init__ loc sid data std bg)
  ↔ ∃ s, loc = CStr s ∧ Exists (λ c, is_digit c = true) (chars s).
Proof.
  intros _. split.
  - intros [w (s & d & -> & Hd & _)%Well_init_Ok_inv]. exists s; split; [reflexivity|].
    destruct (first_digit_run_inv _ _ Hd) as (pre & post & -> & _ & Hne & Hall & _).
    apply Exists_app; right; apply Exists_app; left.
    destruct Hall; [contradiction | left; assumption].
  - intros (s & -> & H).
    destruct (Well_init_with_digit s sid data std bg H) as [o Ho].
    eexists; exact Ho.
Qed.

Lemma Well_init_succeeds_iff_witness :
  ascii_cell (CStr "H12")
  ∧ (is_Ok (Well.__init__ (CStr "H12") (CStr "Background3") [] false true)
     ↔ ∃ s, CStr "H12" = CStr s ∧ Exists (λ c, is_digit c = true) (chars s)).
Proof.
  assert (Hascii : ascii_cell (CStr "H12")) by (apply ascii_only_check; reflexivity).
  split; [exact Hascii|].
  exact (Well_init_succeeds_iff (CStr "H12") (CStr "Background3") [] false true Hascii).
Defined.

(** A well that the constructor returns for a location of ASCII characters
    has the fields it was given, and its location is read off the first
    run of digits of the location string: the value of the run, never
    negative, or nothing, which is the case exactly when the run has more
    digits than [int] accepts. *)
Theorem Well_init_location_of_run (loc sid : cell) (data : list WellStatistic.t)
    (std bg : bool) (w : Well.t) :
  ascii_cell loc →
  Well.__init__ loc sid data std bg = Ok w →
  ∃ s d, loc = CStr s ∧ first_digit_run (chars s) = Some d
    ∧ w = Well.Build loc sid data std bg (Well.location w)
    ∧ (Well.location w = None ↔ (int_max_str_digits < length d)%nat)
    ∧ (∀ n, Well.location w = Some n → n = int_of_digits d ∧ 0 ≤ n).
Proof.
  intros _ (s & d & -> & Hd & ->)%Well_init_Ok_inv.
  exists s, d; split; [reflexivity|]. split; [exact Hd|]. split; [reflexivity|].
  simpl. unfold location_of_run.
  destruct (length d <=? int_max_str_digits)%nat eqn:E.
  - apply Nat.leb_le in E. split; [split; [discriminate | lia]|].
    intros n [= <-]; split; [reflexivity|].
    destruct (first_digit_run_inv _ _ Hd) as (pre & post & _ & _ & _ & Hall & _).
    apply int_of_digits_acc_nonneg; [exact Hall | lia].
  - apply Nat.leb_gt in E. split; [split; [intros _; exact E | reflexivity]|].
    discriminate.
Qed.

Lemma Well_init_location_of_run_witness :
  (ascii_cell (CStr "H12")
   ∧ Well.__init__ (CStr "H12") (CStr "Background3") [] false true
     = Ok (Well.Build (CStr "H12") (CStr "Background3") [] false true (Some 12)))
  ∧ ∃ d, first_digit_run (chars "H12") = Some d
      ∧ (∀ n, Some 12 = Some n → n = int_of_digits d ∧ 0 ≤ n).
Proof.
  assert (Hascii : ascii_cell (CStr "H12")) by (apply ascii_only_check; reflexivity).
  split; [split; [exact Hascii | reflexivity]|].
  destruct (Well_init_location_of_run (CStr "H12") (CStr "Background3") [] false true
              _ Hascii eq_refl) as (s & d & [= <-] & Hd & _ & _ & Hn).
  exists d; split; [exact Hd | exact Hn].
Defined.

(** A location with one digit more than [int] accepts: the well is built
    and its location is null. *)
Example Well_init_long_run :
  Well.location
    <$> Well.__init__ (CStr (string_of_list_ascii (repeat "1"%char 4301)))
          (CStr "Unknown") [] false false
  = Ok None.
Proof. vm_compute. reflexivity. Qed.

(** ** Well.from_series: the well of a row *)

Lemma first_digit_run_is_Some (s : list ascii) :
  is_Some (first_digit_run s) ↔ Exists (λ c, is_digit c = true) s.
Proof.
  split.
  - intros [d Hd].
    destruct (first_digit_run_inv _ _ Hd) as (pre & post & -> & _ & Hne & Hall & _).
    apply Exists_app; right; apply Exists_app; left.
    destruct Hall; [contradiction | left; assumption].
  - intros (d & Hd & _)%first_digit_run_Some; eauto.
Qed.

Lemma lookup_label_is_Some (row : Series) (k : string) :
  k ∈ index row → is_Some (lookup_label row k).
Proof.
  induction row as [|[k0 v0] row IH]; simpl; [intros H; inversion H|].
  destruct (String.eqb_spec k0 k) as [->|Hne]; [eauto|].
  intros [?|H]%elem_of_cons; [congruence | auto].
Qed.

Lemma for_each_is_Ok {A B} (f : A → result B) (xs : list A) :
  is_Ok (for_each f xs) ↔ Forall (λ x, is_Ok (f x)) xs.
Proof.
  induction xs as [|x xs IH]; simpl.
  - split; [constructor | eexists; reflexivity].
  - rewrite Forall_cons, <- IH. destruct (f x) as [y|e]; simpl.
    + destruct (for_each f xs) as [ys|e']; simpl.
      * split; [intros _; split; eexists; reflexivity | intros _; eexists; reflexivity].
      * split; [intros [? [=]] | intros [_ [? [=]]]].
    + split; [intros [? [=]] | intros [[? [=]] _]].
Qed.

(** The statistics of a row are always built: every variable comes from the
    index of the row. *)
Lemma from_series_data_total (row : Series) (dt : string) :
  ∃ data,
    for_each (λ var, v ← Series_getitem row var; Ok (WellStatistic.__init__ dt var v))
      (List.filter (λ i, bool_decide (i ∉ ["Location"; "Sample"]%string)) (index row))
    = Ok data.
Proof.
  apply for_each_is_Ok, List.Forall_forall. intros var [Hin _]%filter_In.
  apply list_elem_of_In, lookup_label_is_Some in Hin as [v Hv].
  unfold Series_getitem; rewrite Hv. eexists; reflexivity.
Qed.

Lemma from_series_unfold (row : Series) (dt : string) (sp bp : option regex) :
  ∃ data,
    Well.from_series row dt sp bp
    = (loc ← Series_getattr row "Location";
       sam ← Series_getattr row "Sample";
       std ← re_match sp sam;
       bg ← re_match bp sam;
       Well.__init__ loc sam data (bool_decide (std ≠ None)) (bool_decide (bg ≠ None))).
Proof.
  destruct (from_series_data_total row dt) as [data Hdata].
  exists data. unfold Well.from_series. rewrite Hdata; simpl.
  destruct (Series_getattr row "Location"); simpl; [|reflexivity].
  destruct (Series_getattr row "Sample"); reflexivity.
Qed.

Lemma from_series_Ok_init (row : Series) (dt : string) (sp bp : option regex)
    (w : Well.t) :
  Well.from_series row dt sp bp = Ok w →
  ∃ loc sam data std bg,
    lookup_label row "Location" = Some loc
    ∧ Well.__init__ loc sam data std bg = Ok w.
Proof.
  destruct (from_series_unfold row dt sp bp) as [data ->].
  unfold Series_getattr.
  destruct (lookup_label row "Location") as [loc|]; [|discriminate]. simpl.
  intros (sam & _ & (std & _ & (bg & _ & H)%bind_Ok)%bind_Ok)%bind_Ok.
  eauto 10.
Qed.

Lemma from_series_is_Ok (row : Series) (dt : string) (sp bp : regex) :
  is_Ok (Well.from_series row dt (Some sp) (Some bp)) ↔ row_with_location row.
Proof.
  destruct (from_series_unfold row dt (Some sp) (Some bp)) as [data ->].
  unfold row_with_location, Series_getattr. split.
  - intros [w H].
    destruct (lookup_label row "Location") as [loc|]; [|discriminate].
    destruct (lookup_label row "Sample") as [sam|]; [|discriminate].
    simpl in H. destruct sam as [sam|]; [|discriminate]. simpl in H.
    apply Well_init_Ok_inv in H as (s & d & -> & Hd & _).
    exists s, sam; split; [reflexivity|]. split; [reflexivity|].
    apply first_digit_run_is_Some; eauto.
  - intros (loc & sam & -> & -> & Hdig). simpl.
    edestruct (Well_init_with_digit loc) as [n ->]; [exact Hdig|].
    eexists; reflexivity.
Qed.


(** The well of a row with distinct labels and cells of ASCII characters,
    in full, for two patterns that [re] compiles: [from_series] returns a
    well exactly when the location and the sample of the row are strings
    and the location holds a digit, and the well then has these two cells,
    the statistics of the other fields in their order, the two
    start-anchored matches as flags and, as location, the value of the
    first run of digits, or nothing when [int] refuses the run for its
    length. *)
Theorem from_series_well (row : Series) (dt : string) (sp bp : regex) (w : Well.t) :
  NoDup (index row) → ascii_row row →
  Well.from_series row dt (Some sp) (Some bp) = Ok w
  ↔ ∃ loc sam d,
      lookup_label row "Location" = Some (CStr loc)
      ∧ lookup_label row "Sample" = Some (CStr sam)
      ∧ first_digit_run (chars loc) = Some d
      ∧ w = Well.Build (CStr loc) (CStr sam) (statistics_of_row dt row)
              (has_prefix_match sp (chars sam)) (has_prefix_match bp (chars sam))
              (location_of_run d).
Proof.
  intros Hnd _. unfold Well.from_series.
  rewrite from_series_statistics by exact Hnd. simpl. unfold Series_getattr.
  assert (Hflag : ∀ r s,
            bool_decide ((if has_prefix_match r s then Some () else None) ≠ None)
            = has_prefix_match r s)
    by (intros r s; destruct (has_prefix_match r s); reflexivity).
  split.
  - destruct (lookup_label row "Location") as [loc|]; [|discriminate].
    destruct (lookup_label row "Sample") as [sam|]; [|discriminate].
    simpl. destruct sam as [sam|]; [|discriminate]. simpl.
    intros (s & d & -> & Hd & ->)%Well_init_Ok_inv.
    exists s, sam, d. rewrite !Hflag. auto.
  - intros (loc & sam & d & -> & -> & Hd & ->). simpl.
    rewrite (Well_init_run loc d _ _ _ _ Hd), !Hflag. reflexivity.
Qed.

Lemma ascii_row_check (row : Series) :
  forallb (λ kv : string * cell,
             match kv.2 with
             | CStr s => forallb (λ c, (nat_of_ascii c <? 128)%nat) (chars s)
             | CNum _ => true
             end) row = true →
  ascii_row row.
Proof.
  intros H. apply List.Forall_forall. intros [k [s|n]] Hin; simpl; [|exact I].
  apply ascii_only_check.
  exact (proj1 (forallb_forall _ row) H (k, CStr s) Hin).
Qed.

Lemma from_series_well_witness :
  (NoDup (index row_Standard1) ∧ ascii_row row_Standard1)
  ∧ Well.from_series row_Standard1 "fluorescence intensity"
      (Some standard_pattern_default) (Some background_pattern_default)
    = Ok (Well.Build (CStr "A1") (CStr "Standard1")
            (statistics_of_row "fluorescence intensity" row_Standard1)
            true false (Some 1)).
Proof.
  assert (Hnd : NoDup (index row_Standard1))
    by (apply (bool_decide_unpack _); vm_compute; exact I).
  assert (Hascii : ascii_row row_Standard1) by (apply ascii_row_check; reflexivity).
  split; [split; assumption|].
  apply (from_series_well row_Standard1 "fluorescence intensity"
           standard_pattern_default background_pattern_default _ Hnd Hascii).
  exists "A1"%string, "Standard1"%string, (chars "1").
  split; [reflexivity|]. split; [reflexivity|]. split; reflexivity.
Defined.

(** ** _plate_from_dataframe and the loaders of Plate: success and failure *)

Lemma for_each_app {A B} (f : A → result B) (l1 l2 : list A) :
  for_each f (l1 ++ l2)
  = (ys1 ← for_each f l1; ys2 ← for_each f l2; Ok (ys1 ++ ys2)).
Proof.
  induction l1 as [|x l1 IH]; simpl.
  - destruct (for_each f l2); reflexivity.
  - destruct (f x) as [y|e]; simpl; [|reflexivity]. rewrite IH.
    destruct (for_each f l1) as [ys1|e]; simpl; [|reflexivity].
    destruct (for_each f l2); reflexivity.
Qed.

Lemma for_each_Raise_inv {A B} (f : A → result B) (xs : list A) (e : exn) :
  for_each f xs = Raise e → ∃ x, x ∈ xs ∧ f x = Raise e.
Proof.
  induction xs as [|x xs IH]; simpl; [discriminate|].
  destruct (f x) as [y|e'] eqn:Hx; simpl.
  - destruct (for_each f xs) as [ys|e'']; simpl; [discriminate|].
    intros [= <-]. destruct (IH eq_refl) as (x' & Hin & Hx').
    exists x'; split; [right; exact Hin | exact Hx'].
  - intros [= <-]. exists x; split; [left | exact Hx].
Qed.

Lemma for_each_Ok_Forall2 {A B} (f : A → result B) (xs : list A) (ys : list B) :
  for_each f xs = Ok ys → Forall2 (λ x y, f x = Ok y) xs ys.
Proof.
  revert ys; induction xs as [|x xs IH]; intros ys; simpl.
  - intros [= <-]; constructor.
  - intros (y & Hy & (ys' & Hys & [= <-])%bind_Ok)%bind_Ok.
    constructor; auto.
Qed.

Lemma ascii_table_check (table : DataFrame) :
  forallb (forallb (λ c : cell,
                      match c with
                      | CStr s => forallb (λ c, (nat_of_ascii c <? 128)%nat) (chars s)
                      | CNum _ => true
                      end)) (rows table) = true →
  ascii_table table.
Proof.
  intros H. apply List.Forall_forall. intros r Hr.
  pose proof (proj1 (forallb_forall _ _) H r Hr) as Hrow.
  apply List.Forall_forall. intros [s|n] Hc; simpl; [|exact I].
  apply ascii_only_check. exact (proj1 (forallb_forall _ _) Hrow (CStr s) Hc).
Qed.

(** Loading a table with distinct labels and cells of ASCII characters,
    with two patterns that [re] compiles, is all or nothing: the wells are
    built exactly when every row has a string location with a digit and a
    string sample; one row that has not makes the whole table fail. *)
Theorem plate_from_dataframe_all_or_nothing (table : DataFrame) (sp bp : regex) :
  well_formed table → ascii_table table →
  is_Ok (_plate_from_dataframe table (Some sp) (Some bp))
  ↔ Forall row_with_location (iterrows table).
Proof.
  intros _ _. unfold _plate_from_dataframe. rewrite for_each_is_Ok.
  apply Forall_iff. intros row. apply from_series_is_Ok.
Qed.

Lemma plate_from_dataframe_all_or_nothing_witness :
  (well_formed table_scenario ∧ ascii_table table_scenario)
  ∧ is_Ok (_plate_from_dataframe table_scenario
             (Some standard_pattern_default) (Some background_pattern_default))
  ∧ Forall row_with_location (iterrows table_scenario).
Proof.
  assert (Hwf : well_formed table_scenario).
  { split; [apply (bool_decide_unpack _); vm_compute; exact I | repeat constructor]. }
  assert (Hascii : ascii_table table_scenario) by (apply ascii_table_check; reflexivity).
  assert (Hok : is_Ok (_plate_from_dataframe table_scenario
                         (Some standard_pattern_default) (Some background_pattern_default)))
    by (eexists; reflexivity).
  split; [split; assumption|]. split; [exact Hok|].
  exact (proj1 (plate_from_dataframe_all_or_nothing table_scenario
                  standard_pattern_default background_pattern_default Hwf Hascii) Hok).
Defined.

(** The error of a table is the error of its first row that fails: the
    rows after it are not looked at. *)
Theorem plate_from_dataframe_first_error (cols : list string)
    (before after : list (list cell)) (r : list cell) (sp bp : option regex) (e : exn) :
  Forall (λ r', is_Ok (Well.from_series (combine cols r') "fluorescence intensity" sp bp))
    before →
  Well.from_series (combine cols r) "fluorescence intensity" sp bp = Raise e →
  _plate_from_dataframe {| columns := cols; rows := before ++ r :: after |} sp bp
  = Raise e.
Proof.
  intros Hbefore Hr. unfold _plate_from_dataframe, iterrows; simpl.
  rewrite map_app, for_each_app; simpl.
  assert (Hb : is_Ok (for_each
                        (λ row, Well.from_series row "fluorescence intensity" sp bp)
                        (map (λ r0, combine cols r0) before))).
  { apply for_each_is_Ok. rewrite Forall_map. exact Hbefore. }
  destruct Hb as [ws ->]; simpl. rewrite Hr; reflexivity.
Qed.

Lemma plate_from_dataframe_first_error_witness :
  _plate_from_dataframe
    {| columns := ["Location"; "Sample"; "X"]%string;
       rows := [[CStr "A1"; CStr "Standard1"; CNum 10]]
               ++ [CStr "B2"; CNum 7; CNum 5]
               :: [[CStr "NoDigits"; CStr "Unknown"; CNum 5]] |}
    (Some standard_pattern_default) (Some background_pattern_default)
  = Raise (TypeError "expected string or bytes-like object").
Proof.
  apply plate_from_dataframe_first_error.
  - constructor; [eexists; reflexivity | constructor].
  - reflexivity.
Defined.

(** The wells of a table are those of its first rows followed by those of
    its last rows; the load of the whole fails as the first part does, or
    else as the second. *)
Theorem plate_from_dataframe_app (cols : list string) (rows1 rows2 : list (list cell))
    (sp bp : option regex) :
  _plate_from_dataframe {| columns := cols; rows := rows1 ++ rows2 |} sp bp
  = (wells1 ← _plate_from_dataframe {| columns := cols; rows := rows1 |} sp bp;
     wells2 ← _plate_from_dataframe {| columns := cols; rows := rows2 |} sp bp;
     Ok (wells1 ++ wells2)).
Proof.
  unfold _plate_from_dataframe, iterrows; simpl.
  rewrite map_app. apply for_each_app.
Qed.

(** The locations of a loaded plate, for a table with distinct labels and
    cells of ASCII characters: every well has the string location of its
    row and, as location, the value of the first run of digits of that
    string, or nothing when the run has more digits than [int] accepts. *)
Theorem plate_from_dataframe_locations (table : DataFrame) (sp bp : option regex)
    (wells : list Well.t) :
  well_formed table → ascii_table table →
  _plate_from_dataframe table sp bp = Ok wells →
  Forall2
    (λ row w, ∃ s d, lookup_label row "Location" = Some (CStr s)
                     ∧ Well.location_str w = CStr s
                     ∧ first_digit_run (chars s) = Some d
                     ∧ Well.location w = location_of_run d)
    (iterrows table) wells.
Proof.
  intros _ _ H%for_each_Ok_Forall2.
  induction H as [|row w rows ws Hw _ IH]; constructor; [|exact IH].
  apply from_series_Ok_init in Hw as (loc & sam & data & std & bg & Hloc & Hw).
  apply Well_init_Ok_inv in Hw as (s & d & -> & Hd & ->). simpl.
  exists s, d; auto.
Qed.

Lemma plate_from_dataframe_locations_witness :
  (well_formed table_scenario ∧ ascii_table table_scenario)
  ∧ ∃ wells,
      _plate_from_dataframe table_scenario
        (Some standard_pattern_default) (Some background_pattern_default) = Ok wells
      ∧ Forall2
          (λ row w, ∃ s d, lookup_label row "Location" = Some (CStr s)
                           ∧ Well.location_str w = CStr s
                           ∧ first_digit_run (chars s) = Some d
                           ∧ Well.location w = location_of_run d)
          (iterrows table_scenario) wells.
Proof.
  assert (Hwf : well_formed table_scenario).
  { split; [apply (bool_decide_unpack _); vm_compute; exact I | repeat constructor]. }
  assert (Hascii : ascii_table table_scenario) by (apply ascii_table_check; reflexivity).
  split; [split; assumption|].
  eexists; split; [reflexivity|].
  exact (plate_from_dataframe_locations table_scenario
           (Some standard_pattern_default) (Some background_pattern_default) _
           Hwf Hascii eq_refl).
Defined.

Lemma bind_Ok_Raise {A B} (r : result A) (g : A → B) (e : exn) :
  (x ← r; Ok (g x)) = Raise e → r = Raise e.
Proof. destruct r; simpl; [discriminate | intros [= ->]; reflexivity]. Qed.



(** ** _ref_from_dataframe and the loaders of Reference *)

Lemma Reference_from_dataframe_missing_column_witness :
  ((("analyte" : string) ∉ columns table_no_analyte) ∧ rows table_no_analyte ≠ [])
  ∧ Reference.from_dataframe table_no_analyte = Raise SchemaError.
Proof.
  assert (Hcol : ("analyte" : string) ∉ columns table_no_analyte).
  { intros H; repeat (apply elem_of_cons in H as [H|H]; [discriminate|]); inversion H. }
  assert (Hrows : rows table_no_analyte ≠ []) by discriminate.
  split; [split; assumption|].
  exact (Reference_from_dataframe_missing_column table_no_analyte Hcol Hrows).
Defined.

Lemma Reference_from_dataframe_with_column_witness :
  ∃ ref, Reference.from_dataframe table_reference = Ok ref
    ∧ ∀ r, r ∈ rows table_reference →
        ∃ a r', row_analyte table_reference r = Some a
                ∧ r' ∈ rows table_reference ∧ row_analyte table_reference r' = Some a
                ∧ items (Reference.data ref) !! a = Some (row_entry table_reference r').
Proof.
  apply Reference_from_dataframe_with_column.
  - split; [apply (bool_decide_unpack _); vm_compute; exact I | repeat constructor].
  - left.
Defined.

Lemma ref_comprehension_Raise (recs : list (gmap string cell))
    (acc : gmap cell (gmap string cell)) (e : exn) :
  ref_comprehension acc recs = Raise e →
  e = KeyError (CStr "analyte")
  ∧ ∃ x, x ∈ recs ∧ x !! ("analyte" : string) = None.
Proof.
  revert acc; induction recs as [|x recs IH]; intros acc; simpl; [discriminate|].
  unfold dict_getitem. destruct (x !! "analyte"%string) as [a|] eqn:Hx; simpl.
  - intros (-> & x' & Hin & Hx')%IH. split; [reflexivity|].
    exists x'; split; [right; exact Hin | exact Hx'].
  - intros [= <-]. split; [reflexivity|]. exists x; split; [left | exact Hx].
Qed.

Lemma ref_from_dataframe_Raise (table : DataFrame) (e : exn) :
  _ref_from_dataframe table = Raise e →
  e = SchemaError ∧ rows table ≠ []
  ∧ (rectangular table → ("analyte" : string) ∉ columns table).
Proof.
  unfold _ref_from_dataframe.
  destruct (ref_comprehension ∅ (to_dict_records table)) as [m|e'] eqn:H; [discriminate|].
  apply ref_comprehension_Raise in H as (-> & x & Hin & Hx). intros [= <-].
  split; [reflexivity|]. unfold to_dict_records, iterrows in Hin. rewrite map_map in Hin.
  apply list_elem_of_fmap in Hin as (r & -> & Hr). split.
  - intros E; rewrite E in Hr; inversion Hr.
  - intros Hrect Hcol. apply dict_of_items_None in Hx. apply Hx.
    rewrite index_combine; [exact Hcol|].
    unfold rectangular in Hrect. rewrite Forall_forall in Hrect. apply Hrect, Hr.
Qed.

(** What loading a reference can raise: the error of the file reader,
    passed on as it is, or the error of the module for a missing column,
    and this one only for a table that has rows and, when its rows are
    complete, no column ["analyte"].  The key error of the dictionary never
    comes out. *)
Theorem Reference_loaders_errors {kwargs : Type}
    (read_csv : string → result DataFrame)
    (read_excel : string → kwargs → result DataFrame)
    (table : DataFrame) (path : string) (kw : kwargs) (e : exn) :
  (Reference.from_dataframe table = Raise e →
     e = SchemaError ∧ rows table ≠ []
     ∧ (rectangular table → ("analyte" : string) ∉ columns table))
  ∧ (Reference.from_csv read_csv path = Raise e →
     read_csv path = Raise e ∨ e = SchemaError)
  ∧ (Reference.from_excel read_excel path kw = Raise e →
     read_excel path kw = Raise e ∨ e = SchemaError)
  ∧ (∀ e', read_csv path = Raise e' → Reference.from_csv read_csv path = Raise e')
  ∧ (∀ e', read_excel path kw = Raise e' →
       Reference.from_excel read_excel path kw = Raise e').
Proof.
  split; [intros H%bind_Ok_Raise; exact (ref_from_dataframe_Raise table e H)|].
  split; [|split; [|split]].
  - unfold Reference.from_csv. destruct (read_csv path) as [t|e']; simpl;
      [|intros [= ->]; left; reflexivity].
    intros H%bind_Ok_Raise; right. exact (proj1 (ref_from_dataframe_Raise t e H)).
  - unfold Reference.from_excel. destruct (read_excel path kw) as [t|e']; simpl;
      [|intros [= ->]; left; reflexivity].
    intros H%bind_Ok_Raise; right. exact (proj1 (ref_from_dataframe_Raise t e H)).
  - intros e' H. unfold Reference.from_csv; rewrite H; reflexivity.
  - intros e' H. unfold Reference.from_excel; rewrite H; reflexivity.
Qed.

Lemma Reference_loaders_errors_witness :
  Reference.from_dataframe table_no_analyte = Raise SchemaError
  ∧ rows table_no_analyte ≠ []
  ∧ Reference.from_csv (λ _, Raise (OSError "No such file or directory")) "reference.csv"
    = Raise (OSError "No such file or directory").
Proof.
  pose proof (Reference_loaders_errors (kwargs := unit)
                (λ _, Raise (OSError "No such file or directory"))
                (λ _ _, Raise (OSError "No such file or directory"))
                table_no_analyte "reference.csv" () SchemaError)
    as (H1 & _ & _ & H4 & _).
  split; [reflexivity|].
  split; [exact (proj1 (proj2 (H1 eq_refl))) | exact (H4 _ eq_refl)].
Defined.

Lemma ref_comprehension_entries (recs : list (gmap string cell))
    (acc m : gmap cell (gmap string cell)) (a : cell) (inner : gmap string cell) :
  ref_comprehension acc recs = Ok m → m !! a = Some inner →
  acc !! a = Some inner
  ∨ ∃ x, x ∈ recs ∧ x !! ("analyte" : string) = Some a
         ∧ inner = filter (λ kv, kv.1 ≠ "analyte"%string) x.
Proof.
  revert acc; induction recs as [|x recs IH]; intros acc; simpl.
  - intros [= <-] H; left; exact H.
  - unfold dict_getitem. destruct (x !! "analyte"%string) as [a'|] eqn:Hx; [|discriminate].
    simpl. intros H Hm. destruct (IH _ H Hm) as [Hacc|(x' & Hin & Hx' & ->)].
    + destruct (decide (a' = a)) as [->|Hne].
      * rewrite lookup_insert_eq in Hacc. injection Hacc as <-.
        right; exists x; split; [left | split; [exact Hx | reflexivity]].
      * rewrite lookup_insert_ne in Hacc by exact Hne. left; exact Hacc.
    + right; exists x'; split; [right; exact Hin | split; [exact Hx' | reflexivity]].
Qed.

(** A loaded reference holds nothing but rows of the table: every entry is
    the entry of a row that names its analyte, and no entry has the key
    ["analyte"]. *)
Theorem Reference_from_dataframe_entries (table : DataFrame) (ref : Reference.t)
    (a : cell) (inner : gmap string cell) :
  Reference.from_dataframe table = Ok ref →
  items (Reference.data ref) !! a = Some inner →
  (∃ r, r ∈ rows table ∧ row_analyte table r = Some a ∧ inner = row_entry table r)
  ∧ inner !! ("analyte" : string) = None.
Proof.
  unfold Reference.from_dataframe, _ref_from_dataframe.
  destruct (ref_comprehension ∅ (to_dict_records table)) as [m|[]] eqn:Hm;
    try discriminate.
  intros [= <-].
  pose proof (Reference_init_items {| kind := PlainDict; items := m |}) as Hi.
  simpl in Hi |- *. rewrite Hi. intros Ha.
  destruct (ref_comprehension_entries _ _ _ _ _ Hm Ha) as [H|(x & Hin & Hx & ->)];
    [rewrite lookup_empty in H; discriminate|].
  unfold to_dict_records, iterrows in Hin. rewrite map_map in Hin.
  apply list_elem_of_fmap in Hin as (r & -> & Hr). split.
  - exists r; split; [exact Hr|]. split; [exact Hx | reflexivity].
  - apply map_lookup_filter_None; right. intros v _ H; apply H; reflexivity.
Qed.

Lemma Reference_from_dataframe_entries_witness :
  ∃ ref inner,
    (Reference.from_dataframe table_reference = Ok ref
     ∧ items (Reference.data ref) !! CStr "B" = Some inner)
    ∧ (∃ r, r ∈ rows table_reference ∧ row_analyte table_reference r = Some (CStr "B")
            ∧ inner = row_entry table_reference r)
    ∧ inner !! ("analyte" : string) = None.
Proof.
  do 2 eexists. split; [split; [reflexivity | vm_compute; reflexivity]|].
  refine (Reference_from_dataframe_entries table_reference _ (CStr "B") _ _ _);
    [reflexivity | vm_compute; reflexivity].
Defined.

Lemma ref_comprehension_nonempty (recs : list (gmap string cell))
    (acc m : gmap cell (gmap string cell)) :
  ref_comprehension acc recs = Ok m → recs ≠ [] → m ≠ ∅.
Proof.
  intros Hm Hne.
  destruct (exists_last Hne) as (pre & x & ->).
  assert (Hx : is_Some (x !! ("analyte" : string))).
  { clear Hne. revert acc Hm. induction pre as [|x0 pre IH]; intros acc; simpl.
    - unfold dict_getitem. destruct (x !! "analyte"%string); [eauto | discriminate].
    - intros (a' & _ & H)%bind_Ok. exact (IH _ H). }
  destruct Hx as [a Ha].
  pose proof (ref_comprehension_last pre [] x acc m a Hm Ha (List.Forall_nil _)) as Hlast.
  intros ->. rewrite lookup_empty in Hlast; discriminate.
Qed.

(** The dictionary of a loaded reference: a table without rows, whatever
    its columns, gives the reference built without data, a
    [defaultdict]; a table with rows gives a plain [dict] that is not
    empty. *)
Theorem Reference_from_dataframe_kind (table : DataFrame) (ref : Reference.t) :
  Reference.from_dataframe table = Ok ref →
  (rows table = [] → ref = Reference.__init__ None)
  ∧ (rows table ≠ [] →
     kind (Reference.data ref) = PlainDict ∧ items (Reference.data ref) ≠ ∅).
Proof.
  unfold Reference.from_dataframe, _ref_from_dataframe.
  destruct (ref_comprehension ∅ (to_dict_records table)) as [m|[]] eqn:Hm;
    try discriminate.
  intros [= <-]. split.
  - intros E. unfold to_dict_records, iterrows in Hm. rewrite E in Hm.
    simpl in Hm. injection Hm as <-. reflexivity.
  - intros Hne. assert (Hm' : m ≠ ∅).
    { eapply ref_comprehension_nonempty; [exact Hm|].
      unfold to_dict_records, iterrows. destruct (rows table); [contradiction|discriminate]. }
    unfold Reference.__init__; simpl.
    rewrite bool_decide_eq_false_2 by exact Hm'. simpl. auto.
Qed.

Lemma Reference_from_dataframe_kind_witness :
  ∃ ref, Reference.from_dataframe table_reference = Ok ref
    ∧ kind (Reference.data ref) = PlainDict ∧ items (Reference.data ref) ≠ ∅.
Proof.
  eexists. split; [reflexivity|].
  refine (proj2 (Reference_from_dataframe_kind table_reference _ _) _);
    [reflexivity | discriminate].
Defined.

(** ** Reference.put *)

Lemma Reference_put_cases (self : Reference.t) (a s : string) (v : cell) :
  ((kind (Reference.data self) = DefaultDict
    ∨ is_Some (items (Reference.data self) !! CStr a))
   ∧ Reference.put self a s v
     = (Reference.Build
          {| kind := kind (Reference.data self);
             items := <[CStr a := <[s := v]>
                                    (default ∅ (items (Reference.data self) !! CStr a))]>
                        (items (Reference.data self)) |},
        Ok ()))
  ∨ (kind (Reference.data self) = PlainDict
     ∧ items (Reference.data self) !! CStr a = None
     ∧ Reference.put self a s v = (self, Raise (KeyError (CStr a)))).
Proof.
  destruct self as [[k m]]; simpl. unfold Reference.put, pydict_getitem; simpl.
  destruct (m !! CStr a) as [inner|] eqn:Hm; simpl.
  - left; split; [right; eauto | reflexivity].
  - destruct k; simpl.
    + right; auto.
    + left; split; [left; reflexivity|]. rewrite insert_insert_eq. reflexivity.
Qed.

Lemma Reference_put_get_witness :
  ∃ self',
    Reference.put (Reference.__init__ None) "A" "S1" (CNum 35) = (self', Ok ())
    ∧ Reference.get self' (Some "A") (Some "S1") = (self', Ok (Scalar (CNum 35))).
Proof.
  destruct (Reference_put_get (Reference.__init__ None) "A" "S1" (CNum 35))
    as (self' & Hput & Hget & _); [left; reflexivity|].
  exists self'; split; assumption.
Defined.

(** On a [Reference] whose inner dictionaries are its own, [put] stores
    its value and leaves every other value as it was: the other standards
    of the analyte, the other analytes and the kind of the dictionary. *)
Theorem Reference_put_frame (self self' : Reference.t) (a s : string) (v : cell) :
  module_built self →
  Reference.put self a s v = (self', Ok ()) →
  stored_value self' (CStr a) s = Some v
  ∧ (∀ a' s', (a', s') ≠ (CStr a, s) → stored_value self' a' s' = stored_value self a' s')
  ∧ (∀ a', a' ≠ CStr a →
       items (Reference.data self') !! a' = items (Reference.data self) !! a')
  ∧ kind (Reference.data self') = kind (Reference.data self).
Proof.
  intros _.
  destruct (Reference_put_cases self a s v) as [[_ ->]|(_ & _ & ->)]; [|discriminate].
  intros [= <-]. unfold stored_value; simpl.
  split; [rewrite lookup_insert_eq; simpl; apply lookup_insert_eq|].
  split; [|split; [intros a' Hne; apply lookup_insert_ne; congruence | reflexivity]].
  intros a' s' Hne. destruct (decide (a' = CStr a)) as [->|Ha].
  - rewrite lookup_insert_eq; simpl.
    rewrite lookup_insert_ne by congruence.
    destruct (items (Reference.data self) !! CStr a); simpl; [reflexivity|].
    apply lookup_empty.
  - rewrite lookup_insert_ne by congruence. reflexivity.
Qed.

Lemma Reference_put_frame_witness :
  ∃ ref self',
    (Reference.from_dataframe table_reference = Ok ref
     ∧ module_built ref
     ∧ Reference.put ref "A" "S3" (CNum 9) = (self', Ok ()))
    ∧ stored_value self' (CStr "A") "S3" = Some (CNum 9)
    ∧ stored_value self' (CStr "A") "S1" = stored_value ref (CStr "A") "S1"
    ∧ stored_value self' (CStr "B") "S2" = stored_value ref (CStr "B") "S2".
Proof.
  assert (Href : ∃ ref, Reference.from_dataframe table_reference = Ok ref
                        ∧ ∃ self', Reference.put ref "A" "S3" (CNum 9) = (self', Ok ())).
  { eexists; split; [reflexivity|]. eexists; vm_compute; reflexivity. }
  destruct Href as (ref & Href & self' & Hput).
  assert (Hbuilt : module_built ref) by exact (built_by_loader table_reference ref Href).
  exists ref, self'. split; [split; [exact Href | split; [exact Hbuilt | exact Hput]]|].
  destruct (Reference_put_frame ref self' "A" "S3" (CNum 9) Hbuilt Hput) as (H1 & H2 & _).
  split; [exact H1|]. split; apply H2; discriminate.
Defined.

(** A second [put] under the same analyte and standard replaces the first:
    the reference is as if the first had not been made. *)
Theorem Reference_put_overwrite (self self1 : Reference.t) (a s : string) (v1 v2 : cell) :
  Reference.put self a s v1 = (self1, Ok ()) →
  Reference.put self1 a s v2 = Reference.put self a s v2.
Proof.
  destruct (Reference_put_cases self a s v1) as [[Hpre ->]|(_ & _ & ->)]; [|discriminate].
  intros [= <-].
  destruct (Reference_put_cases self a s v2) as [[_ ->]|(Hk & Hm & _)].
  - destruct (Reference_put_cases
                (Reference.Build
                   {| kind := kind (Reference.data self);
                      items := <[CStr a := <[s := v1]>
                                   (default ∅ (items (Reference.data self) !! CStr a))]>
                                 (items (Reference.data self)) |}) a s v2)
      as [[_ ->]|(_ & Hm & _)]; simpl in *.
    + rewrite lookup_insert_eq; simpl. rewrite !insert_insert_eq. reflexivity.
    + rewrite lookup_insert_eq in Hm; discriminate.
  - destruct Hpre as [Hk'|[x Hx]]; congruence.
Qed.

Lemma Reference_put_overwrite_witness :
  ∃ self1,
    Reference.put (Reference.__init__ None) "A" "S1" (CNum 1) = (self1, Ok ())
    ∧ Reference.put self1 "A" "S1" (CNum 2)
      = Reference.put (Reference.__init__ None) "A" "S1" (CNum 2).
Proof.
  assert (H : ∃ self1,
            Reference.put (Reference.__init__ None) "A" "S1" (CNum 1) = (self1, Ok ()))
    by (eexists; reflexivity).
  destruct H as [self1 H]. exists self1; split; [exact H|].
  exact (Reference_put_overwrite _ _ "A" "S1" (CNum 1) (CNum 2) H).
Defined.

(** On a [Reference] whose inner dictionaries are its own, two [put]s
    under different keys can be made in either order: both succeed again
    and the reference holds the same values. *)
Theorem Reference_put_commute (self self1 self2 : Reference.t)
    (a s a' s' : string) (v v' : cell) :
  module_built self →
  (a, s) ≠ (a', s') →
  Reference.put self a s v = (self1, Ok ()) →
  Reference.put self a' s' v' = (self2, Ok ()) →
  ∃ self12, Reference.put self1 a' s' v' = (self12, Ok ())
            ∧ Reference.put self2 a s v = (self12, Ok ()).
Proof.
  intros _ Hne.
  destruct (Reference_put_cases self a s v) as [[Hpre ->]|(_ & _ & ->)]; [|discriminate].
  intros [= <-].
  destruct (Reference_put_cases self a' s' v') as [[Hpre' ->]|(_ & _ & ->)]; [|discriminate].
  intros [= <-].
  destruct self as [[k m]]; simpl in *.
  match goal with
  | |- ∃ _, Reference.put ?r1 _ _ _ = _ ∧ Reference.put ?r2 _ _ _ = _ =>
      destruct (Reference_put_cases r1 a' s' v') as [[_ H1]|(Hk1 & Hm1 & _)];
      [destruct (Reference_put_cases r2 a s v) as [[_ H2]|(Hk2 & Hm2 & _)]|]
  end; simpl in *.
  - rewrite H1, H2. eexists; split; [reflexivity|]. do 3 f_equal.
    destruct (decide (a = a')) as [<-|Ha].
    + assert (s ≠ s') by congruence.
      rewrite !lookup_insert_eq; simpl. rewrite !insert_insert_eq.
      f_equal. apply insert_insert_ne; congruence.
    + rewrite !lookup_insert_ne by congruence.
      apply insert_insert_ne; congruence.
  - destruct (decide (a' = a)) as [->|Ha];
      [rewrite lookup_insert_eq in Hm2; discriminate|].
    rewrite lookup_insert_ne in Hm2 by congruence.
    destruct Hpre as [?|[? ?]]; congruence.
  - destruct (decide (a = a')) as [->|Ha];
      [rewrite lookup_insert_eq in Hm1; discriminate|].
    rewrite lookup_insert_ne in Hm1 by congruence.
    destruct Hpre' as [?|[? ?]]; congruence.
Qed.

Lemma Reference_put_commute_witness :
  ∃ self1 self2 self12,
    (module_built (Reference.__init__ None)
     ∧ Reference.put (Reference.__init__ None) "A" "S1" (CNum 1) = (self1, Ok ())
     ∧ Reference.put (Reference.__init__ None) "B" "S1" (CNum 2) = (self2, Ok ()))
    ∧ Reference.put self1 "B" "S1" (CNum 2) = (self12, Ok ())
    ∧ Reference.put self2 "A" "S1" (CNum 1) = (self12, Ok ()).
Proof.
  assert (H1 : ∃ self1,
            Reference.put (Reference.__init__ None) "A" "S1" (CNum 1) = (self1, Ok ()))
    by (eexists; reflexivity).
  assert (H2 : ∃ self2,
            Reference.put (Reference.__init__ None) "B" "S1" (CNum 2) = (self2, Ok ()))
    by (eexists; reflexivity).
  destruct H1 as [self1 H1], H2 as [self2 H2].
  destruct (Reference_put_commute (Reference.__init__ None) self1 self2
              "A" "S1" "B" "S1" (CNum 1) (CNum 2))
    as (self12 & H12 & H21);
    [exact built_without_data | discriminate | exact H1 | exact H2 |].
  exists self1, self2, self12.
  split; [split; [exact built_without_data | split; assumption]|].
  split; assumption.
Defined.

(** [put] succeeds exactly on a [defaultdict] or on an analyte that is
    held; otherwise it raises the key error of the dictionary, with the
    analyte as argument, and the reference is as before. *)
Theorem Reference_put_succeeds_iff (self : Reference.t) (a s : string) (v : cell) :
  ((Reference.put self a s v).2 = Ok ()
   ↔ kind (Reference.data self) = DefaultDict
     ∨ is_Some (items (Reference.data self) !! CStr a))
  ∧ ((Reference.put self a s v).2 = Ok ()
     ∨ Reference.put self a s v = (self, Raise (KeyError (CStr a)))).
Proof.
  destruct (Reference_put_cases self a s v) as [[Hpre ->]|(Hk & Hm & ->)]; simpl.
  - split; [split; auto | left; reflexivity].
  - split; [|right; reflexivity]. split; [discriminate|].
    intros [?|[? ?]]; congruence.
Qed.

(** ** Reference.get *)

(** With an analyte and a standard, [get] returns a scalar and nothing
    else, exactly when a value is stored under them, and the reference is
    then as before. *)
Theorem Reference_get_scalar (self : Reference.t) (a s : string) (out : get_value) :
  ((Reference.get self (Some a) (Some s)).2 = Ok out
   ↔ ∃ v, out = Scalar v ∧ stored_value self (CStr a) s = Some v)
  ∧ ((Reference.get self (Some a) (Some s)).2 = Ok out →
     (Reference.get self (Some a) (Some s)).1 = self).
Proof.
  destruct self as [[k m]]. unfold stored_value; simpl.
  unfold Reference.get, Reference.get_body, pydict_getitem; simpl.
  destruct (m !! CStr a) as [inner|] eqn:Hm; simpl.
  - unfold dict_getitem. destruct (inner !! s) as [v|]; simpl.
    + split; [|reflexivity]. split.
      * intros [= <-]; eauto.
      * intros (v' & -> & [= <-]); reflexivity.
    + split; [|discriminate]. split; [discriminate | intros (v' & _ & [=])].
  - destruct k; simpl.
    + split; [|discriminate]. split; [discriminate | intros (v' & _ & [=])].
    + unfold dict_getitem; rewrite lookup_empty; simpl.
      split; [|discriminate]. split; [discriminate | intros (v' & _ & [=])].
Qed.

Lemma get_series_list (m : gmap cell (gmap string cell)) (s : string)
    (kvs : list (cell * cell)) :
  for_each (λ kv : cell * gmap string cell, v ← dict_getitem kv.2 s; Ok (kv.1, v))
    (map_to_list m) = Ok kvs →
  ∀ a, (list_to_map kvs : gmap cell cell) !! a = inner ← m !! a; inner !! s.
Proof.
  intros H%for_each_Ok_Forall2 a.
  assert (Hfst : kvs.*1 = (map_to_list m).*1).
  { induction H as [|[a0 inner] out l l' Hout _ IH]; [reflexivity|].
    simpl in Hout. unfold dict_getitem in Hout.
    destruct (inner !! s); [|discriminate]. injection Hout as <-.
    simpl; f_equal; exact IH. }
  destruct (m !! a) as [inner|] eqn:Hm; simpl.
  - apply elem_of_map_to_list, list_elem_of_lookup in Hm as [i Hi].
    destruct (Forall2_lookup_l _ _ _ _ _ H Hi) as (out & Hout & Hrel).
    simpl in Hrel. unfold dict_getitem in Hrel.
    destruct (inner !! s) as [v|]; [|discriminate]. injection Hrel as <-.
    apply elem_of_list_to_map_1.
    + rewrite Hfst. apply NoDup_fst_map_to_list.
    + apply list_elem_of_lookup; eauto.
  - apply not_elem_of_list_to_map_1. rewrite Hfst.
    intros ([a' inner] & -> & Hin%elem_of_map_to_list)%list_elem_of_fmap.
    simpl in Hm; congruence.
Qed.

(** With the standard alone, [get] returns a series when every analyte has
    the standard, with the value of each analyte and nothing for any other
    key; it raises the error of the module as soon as one analyte has not.
    The reference is as before in both cases. *)
Theorem Reference_get_by_standard (self : Reference.t) (s : string) :
  (map_Forall (λ _ inner, is_Some (inner !! s)) (items (Reference.data self)) →
   ∃ series, Reference.get self None (Some s) = (self, Ok (AnalyteSeries series))
             ∧ ∀ a, series !! a = stored_value self a s)
  ∧ (¬ map_Forall (λ _ inner, is_Some (inner !! s)) (items (Reference.data self)) →
     Reference.get self None (Some s) = (self, Raise NotFound)).
Proof.
  split.
  - intros Hall. destruct self as [[k m]]; simpl in *.
    unfold Reference.get, Reference.get_body; simpl.
    destruct (for_each (λ kv : cell * gmap string cell,
                          v ← dict_getitem kv.2 s; Ok (kv.1, v)) (map_to_list m))
      as [kvs|e] eqn:Hkvs.
    + simpl. eexists; split; [reflexivity|].
      intros a. unfold stored_value; simpl. exact (get_series_list m s kvs Hkvs a).
    + exfalso. apply for_each_Raise_inv in Hkvs as ([a inner] & Hin & Hx).
      apply elem_of_map_to_list in Hin. destruct (Hall a inner Hin) as [v Hv].
      simpl in Hx. unfold dict_getitem in Hx. rewrite Hv in Hx. discriminate.
  - intros (a & inner & Hm & Hs)%map_not_Forall; [|apply _].
    eapply Reference_get_standard_missing_somewhere; [exact Hm|].
    destruct (inner !! s) eqn:E; [exfalso; apply Hs; eauto | reflexivity].
Qed.

Lemma Reference_get_by_standard_witness :
  ∃ ref series,
    Reference.from_dataframe table_reference = Ok ref
    ∧ Reference.get ref None (Some "S2") = (ref, Ok (AnalyteSeries series))
    ∧ series !! CStr "A" = Some (CNum 6) ∧ series !! CStr "B" = Some (CNum 4).
Proof.
  assert (Href : ∃ ref, Reference.from_dataframe table_reference = Ok ref
                        ∧ map_Forall (λ _ inner, is_Some (inner !! ("S2" : string)))
                            (items (Reference.data ref))
                        ∧ stored_value ref (CStr "A") "S2" = Some (CNum 6)
                        ∧ stored_value ref (CStr "B") "S2" = Some (CNum 4)).
  { eexists; split; [reflexivity|]. split; [|split; vm_compute; reflexivity].
    apply (bool_decide_unpack _); vm_compute; exact I. }
  destruct Href as (ref & Href & Hall & HA & HB).
  destruct (proj1 (Reference_get_by_standard ref "S2") Hall) as (series & Hget & Hs).
  exists ref, series. split; [exact Href|]. split; [exact Hget|].
  rewrite !Hs; auto.
Defined.

(** What [get] can raise: the error of the module for a missing key, with
    at least one argument, and the error for missing arguments, with none.
    The key error of the dictionary never comes out. *)
Theorem Reference_get_errors (self : Reference.t) (analyte standard : option string)
    (e : exn) :
  (Reference.get self analyte standard).2 = Raise e →
  (e = NotFound ∧ (analyte ≠ None ∨ standard ≠ None))
  ∨ (e = InvalidArgument_get ∧ analyte = None ∧ standard = None).
Proof.
  destruct self as [[k m]].
  unfold Reference.get, Reference.get_body, pydict_getitem, dict_getitem; simpl.
  destruct analyte as [a|], standard as [s|]; simpl.
  - destruct (m !! CStr a) as [inner|]; simpl.
    + destruct (inner !! s); simpl; [discriminate|].
      intros [= <-]; left; split; [reflexivity | left; discriminate].
    + destruct k; simpl; [|rewrite lookup_empty; simpl];
        intros [= <-]; left; split; try reflexivity; left; discriminate.
  - destruct (m !! CStr a) as [inner|]; simpl; [discriminate|].
    destruct k; simpl; [|discriminate].
    intros [= <-]; left; split; [reflexivity | left; discriminate].
  - destruct (for_each _ (map_to_list m)) as [kvs|e'] eqn:Hkvs; simpl; [discriminate|].
    apply for_each_Raise_inv in Hkvs as ([a inner] & _ & Hx). simpl in Hx.
    destruct (inner !! s); simpl in Hx; [discriminate|]. injection Hx as <-.
    intros [= <-]; left; split; [reflexivity | right; discriminate].
  - intros [= <-]; right; auto.
Qed.

Lemma Reference_get_errors_witness :
  (Reference.get (Reference.__init__ None) (Some "A") (Some "S1")).2 = Raise NotFound
  ∧ ((NotFound = NotFound ∧ (Some "A"%string ≠ None ∨ Some "S1"%string ≠ None))
     ∨ (NotFound = InvalidArgument_get ∧ Some "A"%string = None ∧ Some "S1"%string = None)).
Proof.
  split; [reflexivity|].
  exact (Reference_get_errors (Reference.__init__ None) (Some "A"%string)
           (Some "S1"%string) NotFound eq_refl).
Defined.

Lemma Reference_get_frame_witness :
  let ref := Reference.Build
               {| kind := PlainDict;
                  items := {[ CStr "A" := {[ ("S1" : string) := CNum 1 ]} ]} |} in
  kind (Reference.data ref) = PlainDict
  ∧ (Reference.get ref (Some "Z") (Some "S1")).2 = Raise NotFound
  ∧ (Reference.get ref (Some "Z") (Some "S1")).1 = ref.
Proof.
  intros ref. split; [reflexivity|]. split; [reflexivity|].
  apply Reference_get_frame. left; reflexivity.
Defined.

(** On a [defaultdict], a call of [get] for an analyte that is not held
    leaves an empty entry behind, and from then on every call of [get]
    with a standard alone fails. *)
Theorem Reference_get_default_then_by_standard (self : Reference.t) (a : string)
    (standard : option string) (s : string) :
  kind (Reference.data self) = DefaultDict →
  items (Reference.data self) !! CStr a = None →
  Reference.get (Reference.get self (Some a) standard).1 None (Some s)
  = ((Reference.get self (Some a) standard).1, Raise NotFound).
Proof.
  intros Hk Hm.
  assert (Hstate : (Reference.get self (Some a) standard).1
                   = Reference.Build
                       {| kind := DefaultDict;
                          items := <[CStr a := ∅]> (items (Reference.data self)) |}).
  { destruct self as [[k m]]; simpl in *. subst k.
    unfold Reference.get, Reference.get_body, pydict_getitem; simpl.
    rewrite Hm. destruct standard; reflexivity. }
  rewrite Hstate.
  apply (Reference_get_standard_missing_somewhere _ s (CStr a) ∅).
  - simpl. apply lookup_insert_eq.
  - apply lookup_empty.
Qed.

Lemma Reference_get_default_then_by_standard_witness :
  ∃ ref,
    (Reference.put (Reference.__init__ None) "A" "S1" (CNum 1) = (ref, Ok ())
     ∧ (Reference.get ref None (Some "S1")).2
       = Ok (AnalyteSeries {[ CStr "A" := CNum 1 ]})
     ∧ kind (Reference.data ref) = DefaultDict
     ∧ items (Reference.data ref) !! CStr "B" = None)
    ∧ Reference.get (Reference.get ref (Some "B") None).1 None (Some "S1")
      = ((Reference.get ref (Some "B") None).1, Raise NotFound).
Proof.
  eexists. split.
  - split; [reflexivity|]. split; [vm_compute; reflexivity|]. split; reflexivity.
  - apply Reference_get_default_then_by_standard; reflexivity.
Defined.

(** ** The console script *)

Lemma length_string_app (s t : string) :
  String.length (s ++ t) = (String.length s + String.length t)%nat.
Proof. induction s as [|c s IH]; simpl; [reflexivity | rewrite IH; reflexivity]. Qed.

Lemma str_mul_length (s : string) (n : nat) :
  String.length (str_mul s n) = (n * String.length s)%nat.
Proof.
  induction n as [|n IH]; simpl; [reflexivity|].
  rewrite length_string_app, IH. reflexivity.
Qed.

Lemma str_mul_chars (c : ascii) (n : nat) :
  Forall (λ x, x = c) (chars (str_mul (String c "") n)).
Proof. induction n as [|n IH]; simpl; constructor; [reflexivity | exact IH]. Qed.

(** [main] leaves what was written before as it is and adds three lines:
    the name of the package, a line of ["="] of the same length, and the
    description. *)
Theorem cli_main_banner (stdout : list string) :
  ∃ underline,
    cli.main stdout
    = stdout ++ ["platemate"; underline;
                 "Python package for plate based assays like ELISAs or Luminex"]%string
    ∧ String.length underline = String.length "platemate"
    ∧ Forall (λ c, c = "="%char) (chars underline).
Proof.
  exists (str_mul "=" (String.length "platemate")).
  split; [unfold cli.main, cli.echo; rewrite <- !app_assoc; reflexivity|].
  split; [rewrite str_mul_length; simpl; lia | apply (str_mul_chars "="%char)].
Qed.
